(** * ZeeCeeDee: the zero-cash-date solver and the yearly projection

    A shallow embedding of the numeric core of the calculator:
    [generateYearlyData] (the year-by-year projection) and [calculateZCD]
    (the closed-form solver), as they appear in [src/app/page.tsx] and in
    the two other revisions of the page kept next to it (the first one
    without chart, the last one with a salary phase before retirement).

    The code computes on JavaScript numbers.  The functions are written once,
    over an interface [Arith] holding the operations the code uses, and run
    at two instances:
    - [FloatArith]: IEEE 754 binary64 ([PrimFloat]), the arithmetic the
      program executes; [Math.log] is left to the platform by the language
      definition, so it is a parameter of that instance;
    - [RealArith]: the real numbers, the exact arithmetic the closed form is
      derived in.  Division by 0 and the logarithm of a non-positive number
      have conventional values there (0), not the [Infinity] and [NaN] of
      the program: statements at this instance either speak of the outcome
      of the tests the code makes or keep the divisors away from 0.

    A statement proved at [RealArith] alone says what the formulas give in
    exact arithmetic, not what the program prints: where one is part of a
    theorem it is marked as such and stands next to a statement for any
    arithmetic and to binary64 runs that show how far rounding moves the
    program away from it.

    Years are counted in [nat]: the loop counter [year] runs over 1, 2, ...
    and the horizon [maxYears] of [generateYearlyData] is a number of years.
    The number of working years is a [nat] as well, the page storing only
    what [parseInt] returns when it is at least 0.  [calculateZCD] ends by
    handing a record to [setResult] and a projection to [setYearlyData]:
    [calculateZCD] below returns the record and the horizon, a number, it
    asks the projection for, and [calculateZCD_run] goes on to the end,
    running the loop against that number ([loopWhile]) for a bounded number
    of passes. *)

From Stdlib Require Import ZArith List Bool Lia.
From Stdlib Require Import Reals Lra.
From Stdlib Require Import Floats Uint63.
Import ListNotations.

Set Implicit Arguments.

(** ** The arithmetic interface *)

Class Arith (num : Type) : Type := {
  nadd : num -> num -> num;
  nsub : num -> num -> num;
  nmul : num -> num -> num;
  ndiv : num -> num -> num;
  nltb : num -> num -> bool;      (* x < y  *)
  nleb : num -> num -> bool;      (* x <= y *)
  nabs : num -> num;              (* Math.abs   *)
  nfloor : num -> num;            (* Math.floor *)
  nlog : num -> num;              (* Math.log   *)
  nofZ : Z -> num                 (* integer literals and loop counters *)
}.

Declare Scope js_scope.
Delimit Scope js_scope with js.
Notation "x + y" := (nadd x y) : js_scope.
Notation "x - y" := (nsub x y) : js_scope.
Notation "x * y" := (nmul x y) : js_scope.
Notation "x / y" := (ndiv x y) : js_scope.
Notation "x <? y" := (nltb x y) : js_scope.
Notation "x <=? y" := (nleb x y) : js_scope.
Notation "# z" := (nofZ z%Z) (at level 1, format "# z") : js_scope.

(** The literal [0.0001] of the source. *)
Definition tolerance {num} `{Arith num} : num := (#1 / #10000)%js.

(** *** Binary64 *)

Module F64.

Definition two52 : float := 4503599627370496%float.

(** [Math.floor]: numbers of magnitude at least 2^52 are integers already;
    below, adding and removing 2^52 rounds to an integer, which is the
    floor or one above it. *)
Definition floor (x : float) : float :=
  if PrimFloat.ltb (PrimFloat.abs x) two52 then
    if PrimFloat.eqb x 0%float then x
    else
      let t := if PrimFloat.ltb x 0%float
               then PrimFloat.add (PrimFloat.sub x two52) two52
               else PrimFloat.sub (PrimFloat.add x two52) two52 in
      if PrimFloat.ltb x t then PrimFloat.sub t 1%float else t
  else x.

Definition ofZ (z : Z) : float :=
  match z with
  | Z0 => 0%float
  | Zpos _ => PrimFloat.of_uint63 (Uint63.of_Z z)
  | Zneg p => PrimFloat.opp (PrimFloat.of_uint63 (Uint63.of_Z (Zpos p)))
  end.

End F64.

#[global] Instance FloatArith (log : float -> float) : Arith float := {
  nadd := PrimFloat.add;
  nsub := PrimFloat.sub;
  nmul := PrimFloat.mul;
  ndiv := PrimFloat.div;
  nltb := PrimFloat.ltb;
  nleb := PrimFloat.leb;
  nabs := PrimFloat.abs;
  nfloor := F64.floor;
  nlog := log;
  nofZ := F64.ofZ
}.

(** *** Exact arithmetic *)

Definition Rltb (x y : R) : bool := if Rlt_dec x y then true else false.
Definition Rleb (x y : R) : bool := if Rle_dec x y then true else false.
Definition Rfloor (x : R) : R := IZR (Int_part x).

#[global] Instance RealArith : Arith R := {
  nadd := Rplus;
  nsub := Rminus;
  nmul := Rmult;
  ndiv := Rdiv;
  nltb := Rltb;
  nleb := Rleb;
  nabs := Rabs;
  nfloor := Rfloor;
  nlog := ln;
  nofZ := IZR
}.

(** ** Data *)

(** [zcd: number | 'infinite'] *)
Inductive Zcd (num : Type) : Type :=
| ZNum (n : num)
| ZInfinite.
Arguments ZInfinite {num}.

Record CalculationResult (num : Type) : Type := {
  zcd : Zcd num;
  isInfinite : bool;
  realGrowthRate : num;
  criticalCapital : option num;
  spendingRate : num;
  sustainableRate : num
}.

Record YearlyData (num : Type) : Type := {
  year : nat;
  burnRate : num;
  portfolioValue : num;
  netWorth : num
}.

(** What one run of [calculateZCD] hands to the two state setters: the
    record given to [setResult], and the horizon [maxYears] it asks the
    projection for ([setYearlyData (generateYearlyData ... maxYears)]). *)
Record Outcome (num : Type) : Type := {
  result : CalculationResult num;
  horizon : num
}.

(** The variables of the [for] loop of [generateYearlyData]. *)
Record LoopState (num : Type) : Type := {
  currentPortfolio : num;
  currentBurn : num;
  data : list (YearlyData num)
}.

(** ** The records of the projection

    Both revisions of [generateYearlyData] push the same three shapes of
    record. *)

Section Records.
Context {num : Type} `{Arith num}.
Local Open Scope js_scope.

(** The record pushed for [year] when the money has run out. *)
Definition depleted (year : nat) (burn : num) : YearlyData num :=
  {| year := year; burnRate := burn; portfolioValue := #0; netWorth := #0 |}.

(** The record pushed for [year] otherwise, and for year 0. *)
Definition snapshot (year : nat) (burn portfolio : num) : YearlyData num :=
  {| year := year; burnRate := burn;
     portfolioValue := portfolio; netWorth := portfolio |}.

(** The loop variables before the first pass, year 0 pushed. *)
Definition initial (A B : num) : LoopState num :=
  {| currentPortfolio := A;
     currentBurn := B;
     data := [snapshot 0 B A] |}.

(** The loop counter after [k] times [year++]. *)
Definition counterAfter (k : nat) (counter : num) : num :=
  Nat.iter k (fun c => c + #1) counter.

End Records.

(** ** The closed form

    Step 3 of [calculateZCD]: the value of [N].  The three revisions of the
    page carry the same text; the last one runs it on
    [portfolioAtRetirement] and [retirementBurn] for [A] and [B]. *)

Section ClosedForm.
Context {num : Type} `{Arith num}.
Local Open Scope js_scope.

Definition finiteYears (A B R : num) : num :=
  if nabs (R - #1) <? tolerance then
    nfloor (A / B)
  else
    let K := (B * R) / (R - #1) in
    if K - A <=? #0 then
      #0
    else
      nfloor (#1 + nlog ((K - B) / (K - A)) / nlog R).

(** The arguments [Math.log] is called on while [N] is computed, in the
    order of the calls: [finiteYears] with the calls kept and the rest
    dropped. *)
Definition logCalls (A B R : num) : list num :=
  if nabs (R - #1) <? tolerance then
    []
  else
    let K := (B * R) / (R - #1) in
    if K - A <=? #0 then
      []
    else
      [(K - B) / (K - A); R].

End ClosedForm.

(** ** First revision: the solver alone *)

Module Part000.
Section Code.
Context {num : Type} `{Arith num}.
Local Open Scope js_scope.

Definition calculateZCD (startingAmount burn inflation growth : num)
  : CalculationResult num :=
  let A := startingAmount in
  let B := burn in
  let Inf := inflation / #100 in
  let G := growth / #100 in
  let R := (#1 + G) / (#1 + Inf) in
  let spendingRate := (B / A) * #100 in
  let sustainableRate := ((R - #1) / R) * #100 in
  if B / A <? (R - #1) / R then
    {| zcd := ZInfinite;
       isInfinite := true;
       realGrowthRate := (R - #1) * #100;
       criticalCapital := None;
       spendingRate := spendingRate;
       sustainableRate := sustainableRate |}
  else
    let N := finiteYears A B R in
    let K := (B * R) / (R - #1) in
    {| zcd := ZNum N;
       isInfinite := false;
       realGrowthRate := (R - #1) * #100;
       criticalCapital := Some K;
       spendingRate := spendingRate;
       sustainableRate := sustainableRate |}.

End Code.
End Part000.

(** ** [src/app/page.tsx] *)

Module Page.
Section Code.
Context {num : Type} `{Arith num}.
Local Open Scope js_scope.

(** One pass through the body of the [for] loop.  The boolean is [false]
    when the pass ends in [break]. *)
Definition loopBody (G Inf : num) (year : nat) (st : LoopState num)
  : LoopState num * bool :=
  (* currentPortfolio -= currentBurn *)
  let portfolio := currentPortfolio st - currentBurn st in
  if portfolio <=? #0 then
    ({| currentPortfolio := portfolio;
        currentBurn := currentBurn st;
        data := data st ++ [depleted year (currentBurn st)] |}, false)
  else
    (* currentPortfolio *= (1 + G); currentBurn *= (1 + Inf) *)
    let portfolio := portfolio * (#1 + G) in
    let burn := currentBurn st * (#1 + Inf) in
    ({| currentPortfolio := portfolio;
        currentBurn := burn;
        data := data st ++ [snapshot year burn portfolio] |}, true).

(** [for (let year = ...; year <= maxYears; year++)], with [remaining] the
    number of values of [year] still to visit. *)
Fixpoint loop (G Inf : num) (remaining year : nat) (st : LoopState num)
  : LoopState num :=
  match remaining with
  | O => st
  | S remaining' =>
      let (st', continue) := loopBody G Inf year st in
      if continue then loop G Inf remaining' (S year) st' else st'
  end.

Definition generateYearlyData (A B G Inf : num) (maxYears : nat)
  : list (YearlyData num) :=
  data (loop G Inf maxYears 1 (initial A B)).

(** The loop variables when the pass for [year] starts, no pass before it
    having left the loop. *)
Definition enteringYear (A B G Inf : num) (year : nat) : LoopState num :=
  loop G Inf (year - 1) 1 (initial A B).

(** What is left once the pass has withdrawn [currentBurn]. *)
Definition balance (st : LoopState num) : num :=
  currentPortfolio st - currentBurn st.

(** The record the pass for [year] pushes. *)
Definition pushed (G Inf : num) (year : nat) (st : LoopState num)
  : YearlyData num :=
  if balance st <=? #0 then depleted year (currentBurn st)
  else snapshot year (currentBurn st * (#1 + Inf)) (balance st * (#1 + G)).

(** The passes for the years 1 to [year] stay in the loop. *)
Definition stays (A B G Inf : num) (year : nat) : Prop :=
  forall y, (1 <= y <= year)%nat ->
    (balance (enteringYear A B G Inf y) <=? #0) = false.

Definition calculateZCD (startingAmount burn inflation growth : num)
  : Outcome num :=
  let A := startingAmount in
  let B := burn in
  let Inf := inflation / #100 in
  let G := growth / #100 in
  let R := (#1 + G) / (#1 + Inf) in
  let spendingRate := (B / A) * #100 in
  let sustainableRate := ((R - #1) / R) * #100 in
  if B / A <? (R - #1) / R then
    {| result := {| zcd := ZInfinite;
                    isInfinite := true;
                    realGrowthRate := (R - #1) * #100;
                    criticalCapital := None;
                    spendingRate := spendingRate;
                    sustainableRate := sustainableRate |};
       horizon := #50 |}
  else
    let N := finiteYears A B R in
    let K := (B * R) / (R - #1) in
    {| result := {| zcd := ZNum N;
                    isInfinite := false;
                    realGrowthRate := (R - #1) * #100;
                    criticalCapital := Some K;
                    spendingRate := spendingRate;
                    sustainableRate := sustainableRate |};
       horizon := N + #5 |}.

(** The [Math.log] calls of a whole run. *)
Definition calculateZCD_logCalls (startingAmount burn inflation growth : num)
  : list num :=
  let A := startingAmount in
  let B := burn in
  let Inf := inflation / #100 in
  let G := growth / #100 in
  let R := (#1 + G) / (#1 + Inf) in
  if B / A <? (R - #1) / R then [] else logCalls A B R.

(** The [for] loop as the program runs it: [maxYears] is a number, and the
    counter, a number as well, is compared with it before every pass;
    [year] numbers the passes, for the records.  [fuel] bounds the number
    of passes: [None] when the loop is still running after that many. *)
Fixpoint loopWhile (G Inf maxYears : num) (fuel year : nat) (counter : num)
  (st : LoopState num) : option (LoopState num) :=
  if counter <=? maxYears then
    match fuel with
    | O => None
    | S fuel' =>
        let (st', continue) := loopBody G Inf year st in
        if continue
        then loopWhile G Inf maxYears fuel' (S year) (counter + #1) st'
        else Some st'
    end
  else Some st.

(** [generateYearlyData] called on a number. *)
Definition generateYearlyData_run (A B G Inf maxYears : num) (fuel : nat)
  : option (list (YearlyData num)) :=
  match loopWhile G Inf maxYears fuel 1 #1 (initial A B) with
  | Some st => Some (data st)
  | None => None
  end.

(** [calculateZCD] to its end: what it hands to [setResult] and to
    [setYearlyData], when the projection it calls returns within [fuel]
    passes of the loop. *)
Definition calculateZCD_run (fuel : nat)
  (startingAmount burn inflation growth : num)
  : option (CalculationResult num * list (YearlyData num)) :=
  let A := startingAmount in
  let B := burn in
  let Inf := inflation / #100 in
  let G := growth / #100 in
  let out := calculateZCD startingAmount burn inflation growth in
  match generateYearlyData_run A B G Inf (horizon out) fuel with
  | Some data => Some (result out, data)
  | None => None
  end.

End Code.
End Page.

(** ** Last revision: a salary is added while working *)

Module Part001.
Section Code.
Context {num : Type} `{Arith num}.
Local Open Scope js_scope.

(** One pass through the body of the [for] loop of [generateYearlyData];
    the boolean is [false] when the pass ends in [break]. *)
Definition loopBody (G Inf salary : num) (retirementYears year : nat)
  (st : LoopState num) : LoopState num * bool :=
  (* if (year <= retirementYears) currentPortfolio += salary *)
  let portfolio :=
    if (year <=? retirementYears)%nat
    then currentPortfolio st + salary
    else currentPortfolio st in
  (* currentPortfolio -= currentBurn *)
  let portfolio := portfolio - currentBurn st in
  if portfolio <=? #0 then
    ({| currentPortfolio := portfolio;
        currentBurn := currentBurn st;
        data := data st ++ [depleted year (currentBurn st)] |}, false)
  else
    let portfolio := portfolio * (#1 + G) in
    let burn := currentBurn st * (#1 + Inf) in
    ({| currentPortfolio := portfolio;
        currentBurn := burn;
        data := data st ++ [snapshot year burn portfolio] |}, true).

Fixpoint loop (G Inf salary : num) (retirementYears remaining year : nat)
  (st : LoopState num) : LoopState num :=
  match remaining with
  | O => st
  | S remaining' =>
      let (st', continue) := loopBody G Inf salary retirementYears year st in
      if continue
      then loop G Inf salary retirementYears remaining' (S year) st'
      else st'
  end.

Definition generateYearlyData (A B G Inf salary : num)
  (retirementYears maxYears : nat) : list (YearlyData num) :=
  data (loop G Inf salary retirementYears maxYears 1 (initial A B)).

(** The loop variables when the pass for [year] starts, no pass before it
    having left the loop. *)
Definition enteringYear (A B G Inf salary : num) (retirementYears year : nat)
  : LoopState num :=
  loop G Inf salary retirementYears (year - 1) 1 (initial A B).

(** What is left once the pass has added the salary, if still working, and
    withdrawn [currentBurn]. *)
Definition balance (salary : num) (retirementYears year : nat)
  (st : LoopState num) : num :=
  (if (year <=? retirementYears)%nat
   then currentPortfolio st + salary
   else currentPortfolio st) - currentBurn st.

(** The record the pass for [year] pushes. *)
Definition pushed (G Inf salary : num) (retirementYears year : nat)
  (st : LoopState num) : YearlyData num :=
  let left := balance salary retirementYears year st in
  if left <=? #0 then depleted year (currentBurn st)
  else snapshot year (currentBurn st * (#1 + Inf)) (left * (#1 + G)).

(** Step 2 of [calculateZCD]: the loop over the working years.  [inl year]
    when the function returns from inside the loop, the money gone in
    [year]; otherwise [portfolioAtRetirement] and [currentBurn] at the end
    of the loop. *)
Fixpoint workingYears (G Inf salary : num) (remaining year : nat)
  (portfolioAtRetirement currentBurn : num) : nat + num * num :=
  match remaining with
  | O => inr (portfolioAtRetirement, currentBurn)
  | S remaining' =>
      let portfolio := portfolioAtRetirement + salary in
      let portfolio := portfolio - currentBurn in
      if portfolio <=? #0 then inl year
      else workingYears G Inf salary remaining' (S year)
             (portfolio * (#1 + G)) (currentBurn * (#1 + Inf))
  end.

Definition calculateZCD (startingAmount burn inflation growth postTaxSalary : num)
  (yearsUntilRetirement : nat) : Outcome num :=
  let A := startingAmount in
  let B := burn in
  let Inf := inflation / #100 in
  let G := growth / #100 in
  let salary := postTaxSalary in
  let retirementYears := yearsUntilRetirement in
  let R := (#1 + G) / (#1 + Inf) in
  match workingYears G Inf salary retirementYears 1 A B with
  | inl year =>
      {| result := {| zcd := ZNum #(Z.of_nat year);
                      isInfinite := false;
                      realGrowthRate := (R - #1) * #100;
                      criticalCapital := None;
                      spendingRate := (B / A) * #100;
                      sustainableRate := ((R - #1) / R) * #100 |};
         horizon := #(Z.of_nat year) + #2 |}
  | inr (portfolioAtRetirement, retirementBurn) =>
      let spendingRate := (B / A) * #100 in
      let sustainableRate := ((R - #1) / R) * #100 in
      if retirementBurn / portfolioAtRetirement <? (R - #1) / R then
        {| result := {| zcd := ZInfinite;
                        isInfinite := true;
                        realGrowthRate := (R - #1) * #100;
                        criticalCapital := None;
                        spendingRate := spendingRate;
                        sustainableRate := sustainableRate |};
           horizon := #50 |}
      else
        let N := finiteYears portfolioAtRetirement retirementBurn R in
        let totalZCD := #(Z.of_nat retirementYears) + N in
        let K := (retirementBurn * R) / (R - #1) in
        {| result := {| zcd := ZNum totalZCD;
                        isInfinite := false;
                        realGrowthRate := (R - #1) * #100;
                        criticalCapital := Some K;
                        spendingRate := spendingRate;
                        sustainableRate := sustainableRate |};
           horizon := totalZCD + #5 |}
  end.

(** The [for] loop of [generateYearlyData] run against a number, as in
    [Page.loopWhile]. *)
Fixpoint loopWhile (G Inf salary : num) (retirementYears : nat)
  (maxYears : num) (fuel year : nat) (counter : num) (st : LoopState num)
  : option (LoopState num) :=
  if counter <=? maxYears then
    match fuel with
    | O => None
    | S fuel' =>
        let (st', continue) := loopBody G Inf salary retirementYears year st in
        if continue
        then loopWhile G Inf salary retirementYears maxYears fuel' (S year)
               (counter + #1) st'
        else Some st'
    end
  else Some st.

Definition generateYearlyData_run (A B G Inf salary : num)
  (retirementYears : nat) (maxYears : num) (fuel : nat)
  : option (list (YearlyData num)) :=
  match loopWhile G Inf salary retirementYears maxYears fuel 1 #1
          (initial A B) with
  | Some st => Some (data st)
  | None => None
  end.

Definition calculateZCD_run (fuel : nat)
  (startingAmount burn inflation growth postTaxSalary : num)
  (yearsUntilRetirement : nat)
  : option (CalculationResult num * list (YearlyData num)) :=
  let A := startingAmount in
  let B := burn in
  let Inf := inflation / #100 in
  let G := growth / #100 in
  let out := calculateZCD startingAmount burn inflation growth postTaxSalary
               yearsUntilRetirement in
  match generateYearlyData_run A B G Inf postTaxSalary yearsUntilRetirement
          (horizon out) fuel with
  | Some data => Some (result out, data)
  | None => None
  end.

End Code.
End Part001.


(** ** The input fields

    Strings are sequences of UTF-16 code units, which is what the regular
    expressions of the page (written without the [u] flag) match on.
    [parseFloat] and [parseInt] belong to the platform and are parameters. *)

Module Inputs.

Definition codeUnit : Type := N.
Definition jsString : Type := list codeUnit.

(** [[0-9]] *)
Definition isDigit (c : codeUnit) : bool := (48 <=? c)%N && (c <=? 57)%N.

(** [,] and [.] *)
Definition isComma (c : codeUnit) : bool := (c =? 44)%N.
Definition isDot (c : codeUnit) : bool := (c =? 46)%N.

(** [\s]: the white space and line terminator code units. *)
Definition isSpace (c : codeUnit) : bool :=
  existsb (N.eqb c)
    [9; 10; 11; 12; 13; 32; 160; 5760; 8232; 8233; 8239; 8287; 12288; 65279]%N
  || ((8192 <=? c)%N && (c <=? 8202)%N).

(** [str.replace(/,/g, '')] *)
Definition dropCommas (str : jsString) : jsString :=
  filter (fun c => negb (isComma c)) str.

(** [str.replace(/[^0-9.]/g, '')] *)
Definition keepDigitsAndDots (str : jsString) : jsString :=
  filter (fun c => isDigit c || isDot c) str.

(** [value.replace(/[^0-9,.\s]/g, '')] *)
Definition keepTyped (value : jsString) : jsString :=
  filter (fun c => isDigit c || isComma c || isDot c || isSpace c) value.

Section Handlers.
Variable parseFloat : jsString -> float.
Variable parseInt : jsString -> float.

(** [page.tsx]: [parseFloat(str.replace(/,/g, '')) || 0]; the numbers that
    count as false are [NaN], [0] and [-0]. *)
Definition parseNumberFromCommas_page (str : jsString) : float :=
  let num := parseFloat (dropCommas str) in
  if PrimFloat.is_nan num || PrimFloat.eqb num 0%float then 0%float else num.

(** Last revision. *)
Definition parseNumberFromCommas (str : jsString) : float :=
  let cleaned := keepDigitsAndDots str in
  let num := parseFloat cleaned in
  if PrimFloat.is_nan num then 0%float else num.

(** [handleInputChange]: what it hands to [setDisplay] and to [setActual]. *)
Definition handleInputChange (value : jsString) : jsString * float :=
  let filtered := keepTyped value in
  let numericValue := parseNumberFromCommas filtered in
  (filtered, numericValue).

Definition jsString_eqb (s t : jsString) : bool :=
  if list_eq_dec N.eq_dec s t then true else false.

(** The [onChange] handler of the field of the years until retirement: the
    new value of [yearsUntilRetirement], from the old one and the text of
    the field. *)
Definition retirementChange (yearsUntilRetirement : float) (value : jsString)
  : float :=
  if jsString_eqb value [] || jsString_eqb value [48%N] then
    0%float
  else
    let numValue := parseInt value in
    if negb (PrimFloat.is_nan numValue) && PrimFloat.leb 0%float numValue
    then numValue
    else yearsUntilRetirement.

End Handlers.

End Inputs.

(** * Properties *)

Unset Implicit Arguments.

(** ** The loop of the projection, for any arithmetic *)

Lemma nth_error_lt {X : Type} (l : list X) (i : nat) (x : X) :
  nth_error l i = Some x -> (i < length l)%nat.
Proof. intros E. apply nth_error_Some. rewrite E. discriminate. Qed.

Section LoopFacts.
Context {num : Type} `{Arith num}.
Local Open Scope js_scope.

Variables G Inf salary : num.
Variable retirementYears : nat.

Let body := Part001.loopBody G Inf salary retirementYears.
Let run := Part001.loop G Inf salary retirementYears.
Let left := Part001.balance salary retirementYears.
Let rec := Part001.pushed G Inf salary retirementYears.

Lemma body_data year st :
  data (fst (body year st)) = data st ++ [rec year st].
Proof.
  unfold body, rec, Part001.loopBody, Part001.pushed, Part001.balance.
  destruct (nleb _ _); reflexivity.
Qed.

Lemma body_continue year st :
  snd (body year st) = negb (left year st <=? #0).
Proof.
  unfold body, left, Part001.loopBody, Part001.balance.
  destruct (nleb _ _); reflexivity.
Qed.

Lemma run_S n year st :
  run (S n) year st =
  if left year st <=? #0 then fst (body year st)
  else run n (S year) (fst (body year st)).
Proof.
  unfold run; simpl. fold body.
  pose proof (body_continue year st) as Hc.
  destruct (body year st) as [st' c]; simpl in *; subst c.
  destruct (nleb _ _); reflexivity.
Qed.

Lemma run_prefix n : forall year st j,
  (j < length (data st))%nat ->
  nth_error (data (run n year st)) j = nth_error (data st) j.
Proof.
  induction n as [|n IH]; intros year st j Hj; [reflexivity|].
  rewrite run_S.
  assert (Hb : nth_error (data (fst (body year st))) j = nth_error (data st) j).
  { rewrite body_data. now apply nth_error_app1. }
  destruct (nleb _ _); [exact Hb|].
  rewrite IH; [exact Hb|].
  rewrite body_data, length_app; simpl; lia.
Qed.

Lemma run_length n : forall year st,
  (length (data st) <= length (data (run n year st)) <= length (data st) + n)%nat.
Proof.
  induction n as [|n IH]; intros year st; [unfold run; simpl; lia|].
  rewrite run_S.
  assert (Hb : length (data (fst (body year st))) = S (length (data st))).
  { rewrite body_data, length_app; simpl; lia. }
  destruct (nleb _ _); [lia|].
  specialize (IH (S year) (fst (body year st))). lia.
Qed.

(** Splitting a run after passes that stay in the loop. *)
Lemma run_continue k : forall year st,
  (forall j, (j < k)%nat -> (left (year + j) (run j year st) <=? #0) = false) ->
  forall m, run (k + m) year st = run m (year + k) (run k year st).
Proof.
  induction k as [|k IH]; intros year st Hk m.
  - simpl. now rewrite Nat.add_0_r.
  - assert (H0 : (left year st <=? #0) = false).
    { specialize (Hk 0%nat). rewrite Nat.add_0_r in Hk. apply Hk. lia. }
    change (S k + m)%nat with (S (k + m)).
    rewrite !run_S, H0.
    replace (year + S k)%nat with (S year + k)%nat by lia.
    apply IH. intros j Hj.
    specialize (Hk (S j)). rewrite run_S, H0 in Hk.
    replace (S year + j)%nat with (year + S j)%nat by lia.
    apply Hk. lia.
Qed.

(** The record at position [length (data st) + k]: the one pushed by the
    pass for [year + k], every pass before it having stayed in the loop. *)
Lemma run_nth n : forall year st k r,
  nth_error (data (run n year st)) (length (data st) + k) = Some r ->
  (k < n)%nat /\
  r = rec (year + k) (run k year st) /\
  (forall j, (j < k)%nat -> (left (year + j) (run j year st) <=? #0) = false) /\
  ((left (year + k) (run k year st) <=? #0) = true ->
   length (data (run n year st)) = (length (data st) + S k)%nat).
Proof.
  induction n as [|n IH]; intros year st k r Hr.
  - unfold run in Hr; simpl in Hr. apply nth_error_lt in Hr. lia.
  - rewrite run_S in Hr |- *.
    assert (Hd := body_data year st).
    assert (Hl : length (data (fst (body year st))) = S (length (data st))).
    { rewrite Hd, length_app; simpl; lia. }
    destruct k as [|k].
    + rewrite Nat.add_0_r in *. change (run 0 year st) with st.
      assert (Hr' : r = rec year st).
      { destruct (nleb _ _).
        - rewrite Hd, nth_error_app2, Nat.sub_diag in Hr by lia.
          simpl in Hr. congruence.
        - rewrite run_prefix in Hr by lia.
          rewrite Hd, nth_error_app2, Nat.sub_diag in Hr by lia.
          simpl in Hr. congruence. }
      repeat split; [lia|exact Hr'|intros; lia|].
      intros Hz. rewrite Hz. lia.
    + destruct (left year st <=? #0) eqn:Hz.
      * apply nth_error_lt in Hr. rewrite Hl in Hr. lia.
      * replace (length (data st) + S k)%nat
          with (length (data (fst (body year st))) + k)%nat in Hr by lia.
        destruct (IH _ _ _ _ Hr) as (Hk & Hrec & Hbefore & Hstop).
        assert (Hrun : forall j, run (S j) year st = run j (S year) (fst (body year st))).
        { intros j. now rewrite run_S, Hz. }
        repeat split.
        -- lia.
        -- rewrite Hrun. replace (year + S k)%nat with (S year + k)%nat by lia.
           exact Hrec.
        -- intros [|j] Hj.
           ++ now rewrite Nat.add_0_r.
           ++ rewrite Hrun. replace (year + S j)%nat with (S year + j)%nat by lia.
              apply Hbefore. lia.
        -- rewrite Hrun. replace (year + S k)%nat with (S year + k)%nat by lia.
           intros Hs. rewrite (Hstop Hs). lia.
Qed.

(** Passes that stay in the loop push one record each. *)
Lemma run_continue_length k : forall year st,
  (forall j, (j < k)%nat -> (left (year + j) (run j year st) <=? #0) = false) ->
  length (data (run k year st)) = (length (data st) + k)%nat.
Proof.
  induction k as [|k IH]; intros year st Hk.
  - unfold run; simpl; lia.
  - assert (H0 : (left year st <=? #0) = false).
    { specialize (Hk 0%nat). rewrite Nat.add_0_r in Hk. apply Hk. lia. }
    rewrite run_S, H0, IH.
    + rewrite body_data, length_app; simpl; lia.
    + intros j Hj. specialize (Hk (S j)). rewrite run_S, H0 in Hk.
      replace (S year + j)%nat with (year + S j)%nat by lia.
      apply Hk. lia.
Qed.

(** The pass for [year + k] is reached, and pushes its record, when the
    passes before it stay in the loop. *)
Lemma run_reaches n k year st :
  (k < n)%nat ->
  (forall j, (j < k)%nat -> (left (year + j) (run j year st) <=? #0) = false) ->
  nth_error (data (run n year st)) (length (data st) + k)
  = Some (rec (year + k) (run k year st)).
Proof.
  intros Hkn Hk.
  replace n with (k + S (n - S k))%nat by lia.
  rewrite (@run_continue k year st Hk), run_S.
  pose proof (@run_continue_length k year st Hk) as Hl.
  set (stk := run k year st) in *.
  assert (Hb : nth_error (data (fst (body (year + k) stk))) (length (data st) + k)
               = Some (rec (year + k) stk)).
  { rewrite body_data, nth_error_app2 by lia.
    now replace (length (data st) + k - length (data stk))%nat with 0%nat by lia. }
  destruct (nleb _ _); [exact Hb|].
  rewrite run_prefix; [exact Hb|].
  rewrite body_data, length_app; simpl; lia.
Qed.

(** A pass that leaves the loop pushes the last record. *)
Lemma run_stops n k year st :
  (k < n)%nat ->
  (forall j, (j < k)%nat -> (left (year + j) (run j year st) <=? #0) = false) ->
  (left (year + k) (run k year st) <=? #0) = true ->
  run n year st = fst (body (year + k) (run k year st)).
Proof.
  intros Hkn Hk Hz.
  replace n with (k + S (n - S k))%nat by lia.
  now rewrite (@run_continue k year st Hk), run_S, Hz.
Qed.

End LoopFacts.

(** Once retired, the last revision's pass is the pass of [page.tsx]. *)
Section Retired.
Context {num : Type} `{Arith num}.
Local Open Scope js_scope.

Lemma loopBody_retired G Inf salary retirementYears year st :
  (retirementYears < year)%nat ->
  Part001.loopBody G Inf salary retirementYears year st
  = Page.loopBody G Inf year st.
Proof.
  intros Hy. unfold Part001.loopBody, Page.loopBody.
  replace (year <=? retirementYears)%nat with false; [reflexivity|].
  symmetry. apply Nat.leb_gt. exact Hy.
Qed.

Lemma loop_retired G Inf salary retirementYears n : forall year st,
  (retirementYears < year)%nat ->
  Part001.loop G Inf salary retirementYears n year st
  = Page.loop G Inf n year st.
Proof.
  induction n as [|n IH]; intros year st Hy; [reflexivity|].
  simpl. rewrite loopBody_retired by exact Hy.
  destruct (Page.loopBody G Inf year st) as [st' [|]]; [|reflexivity].
  apply IH. lia.
Qed.

Lemma generateYearlyData_no_salary A B G Inf salary maxYears :
  Part001.generateYearlyData A B G Inf salary 0 maxYears
  = Page.generateYearlyData A B G Inf maxYears.
Proof.
  unfold Part001.generateYearlyData, Page.generateYearlyData.
  now rewrite loop_retired by lia.
Qed.

Lemma enteringYear_no_salary A B G Inf salary year :
  Part001.enteringYear A B G Inf salary 0 year
  = Page.enteringYear A B G Inf year.
Proof.
  unfold Part001.enteringYear, Page.enteringYear.
  now rewrite loop_retired by lia.
Qed.

Lemma balance_retired salary retirementYears year st :
  (retirementYears < year)%nat ->
  Part001.balance salary retirementYears year st = Page.balance st.
Proof.
  intros Hy. unfold Part001.balance, Page.balance.
  replace (year <=? retirementYears)%nat with false; [reflexivity|].
  symmetry. apply Nat.leb_gt. exact Hy.
Qed.

Lemma pushed_retired G Inf salary retirementYears year st :
  (retirementYears < year)%nat ->
  Part001.pushed G Inf salary retirementYears year st
  = Page.pushed G Inf year st.
Proof.
  intros Hy. unfold Part001.pushed, Page.pushed.
  now rewrite balance_retired by exact Hy.
Qed.

End Retired.

(** ** Exact arithmetic: the tests *)

Section RealTests.
Local Open Scope R_scope.

Lemma Rltb_true x y : x < y -> Rltb x y = true.
Proof. intros Hxy. unfold Rltb. destruct (Rlt_dec x y); [reflexivity|contradiction]. Qed.

Lemma Rltb_false x y : y <= x -> Rltb x y = false.
Proof. intros Hxy. unfold Rltb. destruct (Rlt_dec x y); [lra|reflexivity]. Qed.

Lemma Rleb_true x y : x <= y -> Rleb x y = true.
Proof. intros Hxy. unfold Rleb. destruct (Rle_dec x y); [reflexivity|contradiction]. Qed.

Lemma Rleb_false x y : y < x -> Rleb x y = false.
Proof. intros Hxy. unfold Rleb. destruct (Rle_dec x y); [lra|reflexivity]. Qed.

Lemma Rltb_iff x y : Rltb x y = true <-> x < y.
Proof.
  unfold Rltb. destruct (Rlt_dec x y); split; intros; try assumption;
    try reflexivity; try discriminate; contradiction.
Qed.

Lemma Rleb_iff x y : Rleb x y = true <-> x <= y.
Proof.
  unfold Rleb. destruct (Rle_dec x y); split; intros; try assumption;
    try reflexivity; try discriminate; contradiction.
Qed.

Lemma tolerance_real : tolerance (H := RealArith) = 0.0001.
Proof. unfold tolerance; simpl. lra. Qed.

End RealTests.

(** Unfolds the interface at the real numbers. *)
Ltac at_reals :=
  cbn [nadd nsub nmul ndiv nltb nleb nabs nfloor nlog nofZ RealArith] in *.

(** ** The solver *)

(** The first revision computes the record [page.tsx] hands to [setResult]. *)
Lemma Part000_result {num : Type} `{Arith num} (A B inflation growth : num) :
  Part000.calculateZCD A B inflation growth
  = result (Page.calculateZCD A B inflation growth).
Proof.
  unfold Part000.calculateZCD, Page.calculateZCD.
  destruct (nltb _ _); reflexivity.
Qed.

(** Without working years the last revision takes the raw inputs into the
    closed form. *)
Lemma workingYears_none {num : Type} `{Arith num} (G Inf salary A B : num) :
  Part001.workingYears G Inf salary 0 1 A B = inr (A, B).
Proof. reflexivity. Qed.

(** [Math.log] matters to [N] only at the arguments [logCalls] lists: two
    implementations that agree there give the same [N]. *)
Lemma finiteYears_logCalls (log1 log2 : float -> float) (A B R : float) :
  (forall x, In x (logCalls (H := FloatArith log1) A B R) -> log1 x = log2 x) ->
  finiteYears (H := FloatArith log1) A B R
  = finiteYears (H := FloatArith log2) A B R.
Proof.
  unfold logCalls, finiteYears; simpl.
  destruct (PrimFloat.ltb _ _); [reflexivity|].
  destruct (PrimFloat.leb _ _); [reflexivity|].
  intros Hlog. rewrite !Hlog; simpl; auto.
Qed.

(** C3: when the test for the infinite case fails and [R] is at least
    [0.0001] away from 1, the solver returns
    [floor (1 + log ((K - B) / (K - A)) / log R)] if [K > A], and 0 if
    [K <= A].  First for any arithmetic, on the outcomes of the tests the
    code makes ([K - A <= 0] for [K <= A]); then in exact arithmetic, in the
    words of the claim.  The first revision returns the same record. *)
Theorem general_finite_case :
  (forall (num : Type) (H : Arith num) (A B inflation growth : num),
     let R := ((#1 + growth / #100) / (#1 + inflation / #100))%js in
     let K := (B * R / (R - #1))%js in
     (B / A <? (R - #1) / R)%js = false ->
     (nabs (R - #1) <? tolerance)%js = false ->
     let r := result (Page.calculateZCD A B inflation growth) in
     Part000.calculateZCD A B inflation growth = r /\
     isInfinite r = false /\
     ((K - A <=? #0)%js = false ->
      zcd r = ZNum (nfloor (#1 + nlog ((K - B) / (K - A)) / nlog R))%js) /\
     ((K - A <=? #0)%js = true -> zcd r = ZNum #0%js)) /\
  (forall A B inflation growth : R,
     let R := ((1 + growth / 100) / (1 + inflation / 100))%R in
     let K := (B * R / (R - 1))%R in
     (~ B / A < (R - 1) / R)%R ->
     (Rabs (R - 1) >= 0.0001)%R ->
     let r := result (Page.calculateZCD A B inflation growth) in
     Part000.calculateZCD A B inflation growth = r /\
     isInfinite r = false /\
     ((K > A)%R ->
      zcd r = ZNum (Rfloor (1 + ln ((K - B) / (K - A)) / ln R))%R) /\
     ((K <= A)%R -> zcd r = ZNum 0%R)).
Proof.
  assert (Hany : forall (num : Type) (H : Arith num) (A B inflation growth : num),
     let R := ((#1 + growth / #100) / (#1 + inflation / #100))%js in
     let K := (B * R / (R - #1))%js in
     (B / A <? (R - #1) / R)%js = false ->
     (nabs (R - #1) <? tolerance)%js = false ->
     let r := result (Page.calculateZCD A B inflation growth) in
     Part000.calculateZCD A B inflation growth = r /\
     isInfinite r = false /\
     ((K - A <=? #0)%js = false ->
      zcd r = ZNum (nfloor (#1 + nlog ((K - B) / (K - A)) / nlog R))%js) /\
     ((K - A <=? #0)%js = true -> zcd r = ZNum #0%js)).
  { intros num H A B inflation growth R K Hfin Hgen r. subst r.
    split; [apply Part000_result|].
    unfold Page.calculateZCD, finiteYears. fold R. fold K.
    rewrite Hfin, Hgen. simpl.
    split; [reflexivity|]. split; intros HK; rewrite HK; reflexivity. }
  split; [exact Hany|].
  intros A B inflation growth R K Hfin Hgen.
  destruct (Hany _ RealArith A B inflation growth) as (H0 & Hf & Hlog & Hzero).
  - at_reals. apply Rltb_false. apply Rnot_lt_le. exact Hfin.
  - at_reals. rewrite tolerance_real. apply Rltb_false. fold R. lra.
  - at_reals. fold R in Hlog, Hzero. fold K in Hlog, Hzero.
    split; [exact H0|]. split; [exact Hf|]. split; intros HK.
    + apply Hlog. apply Rleb_false. lra.
    + apply Hzero. apply Rleb_true. lra.
Qed.


(** Decides the tests of a run on concrete real inputs. *)
Ltac rsolve := try (unfold Rabs; repeat destruct (Rcase_abs _)); lra.

Ltac decide_tests :=
  repeat match goal with
  | |- context [Rltb ?a ?b] =>
      first [ rewrite (Rltb_true a b) by rsolve
            | rewrite (Rltb_false a b) by rsolve ]
  | |- context [Rleb ?a ?b] =>
      first [ rewrite (Rleb_true a b) by rsolve
            | rewrite (Rleb_false a b) by rsolve ]
  end.

(** Runs a projection on concrete real inputs. *)
Ltac project :=
  unfold Page.generateYearlyData, Page.enteringYear,
         Part001.generateYearlyData, Part001.enteringYear, initial;
  repeat progress
    (try unfold Page.loopBody; try unfold Part001.loopBody;
     cbn [Page.loop Part001.loop currentPortfolio currentBurn data
          Nat.leb Nat.sub app];
     at_reals; decide_tests).

Section SolverAtReals.
Local Open Scope R_scope.

Lemma general_finite_case_witness :
  let r := result (Page.calculateZCD 100 60 0 100) in
  let K := 60 * ((1 + 100 / 100) / (1 + 0 / 100))
           / ((1 + 100 / 100) / (1 + 0 / 100) - 1) in
  isInfinite r = false /\
  zcd r = ZNum (Rfloor (1 + ln ((K - 60) / (K - 100))
                          / ln ((1 + 100 / 100) / (1 + 0 / 100)))) /\
  zcd (result (Page.calculateZCD 100 50 0 100)) = ZNum 0.
Proof.
  destruct general_finite_case as (Hany & Hreal).
  destruct (Hreal 100 60 0 100) as (_ & Hfin & Hlog & _).
  - lra.
  - rsolve.
  - split; [exact Hfin|]. split; [apply Hlog; lra|].
    destruct (Hany _ RealArith 100 50 0 100) as (_ & _ & _ & Hzero).
    + at_reals. apply Rltb_false. lra.
    + at_reals. rewrite tolerance_real. apply Rltb_false. rsolve.
    + apply Hzero. at_reals. apply Rleb_true. lra.
Defined.

(** C9: with the growth rate equal to the inflation rate and no working
    years, the solver returns [floor (A / B)]. *)
Theorem equal_rates_linear_depletion (A B rate salary : R) :
  0 < A -> 0 < B -> 1 + rate / 100 <> 0 ->
  let r := result (Page.calculateZCD A B rate rate) in
  let r' := result (Part001.calculateZCD A B rate rate salary 0) in
  Part000.calculateZCD A B rate rate = r /\
  isInfinite r = false /\
  zcd r = ZNum (Rfloor (A / B)) /\
  isInfinite r' = false /\
  zcd r' = ZNum (0 + Rfloor (A / B)).
Proof.
  intros HA HB Hrate r r'. subst r r'.
  split; [apply Part000_result|].
  unfold Part001.calculateZCD. rewrite workingYears_none.
  unfold Page.calculateZCD, finiteYears. at_reals.
  rewrite tolerance_real.
  replace ((1 + rate / 100) / (1 + rate / 100)) with 1
    by (unfold Rdiv at 1; now rewrite Rinv_r).
  assert (HBA : 0 <= B / A).
  { apply Rmult_le_pos; [lra|]. left. apply Rinv_0_lt_compat. exact HA. }
  rewrite (Rltb_false (B / A) ((1 - 1) / 1)) by lra.
  rewrite (Rltb_true (Rabs (1 - 1)) 0.0001) by rsolve.
  simpl. repeat split.
Qed.

Lemma equal_rates_linear_depletion_witness :
  zcd (result (Page.calculateZCD 105 10 3 3)) = ZNum (Rfloor (105 / 10)).
Proof.
  apply (equal_rates_linear_depletion 105 10 3 0); lra.
Defined.

(** C1, as the code has it: without working years, the infinite case is
    reported exactly when [B / A < (R - 1) / R], and the two rates on display
    are these two quotients times 100, for any arithmetic; in exact
    arithmetic this is the same as the displayed spending rate being below
    the displayed sustainable rate. *)
Theorem infinite_iff_spending_below_sustainable :
  (forall (num : Type) (H : Arith num) (A B inflation growth salary : num),
     let R := ((#1 + growth / #100) / (#1 + inflation / #100))%js in
     let r := result (Page.calculateZCD A B inflation growth) in
     let r' := result (Part001.calculateZCD A B inflation growth salary 0) in
     isInfinite r = (B / A <? (R - #1) / R)%js /\
     spendingRate r = (B / A * #100)%js /\
     sustainableRate r = ((R - #1) / R * #100)%js /\
     isInfinite r' = isInfinite r /\
     spendingRate r' = spendingRate r /\
     sustainableRate r' = sustainableRate r) /\
  (forall A B inflation growth salary : R,
     let r := result (Page.calculateZCD A B inflation growth) in
     let r' := result (Part001.calculateZCD A B inflation growth salary 0) in
     (spendingRate r < sustainableRate r <-> isInfinite r = true) /\
     (spendingRate r' < sustainableRate r' <-> isInfinite r' = true)).
Proof.
  split.
  - intros num H A B inflation growth salary R r r'. subst r r'.
    unfold Part001.calculateZCD. rewrite workingYears_none.
    unfold Page.calculateZCD. fold R.
    destruct (nltb _ _); simpl; repeat split.
  - intros A B inflation growth salary.
    unfold Part001.calculateZCD. rewrite workingYears_none.
    unfold Page.calculateZCD. at_reals.
    set (R := (1 + growth / 100) / (1 + inflation / 100)).
    assert (Hiff : forall b : bool,
               Rltb (B / A) ((R - 1) / R) = b ->
               (B / A * 100 < (R - 1) / R * 100 <-> b = true)).
    { intros b Hb. rewrite <- Hb, Rltb_iff. lra. }
    cbv zeta.
    destruct (Rltb (B / A) ((R - 1) / R)) eqn:E; simpl;
      split; apply Hiff; reflexivity.
Qed.

(** With one working year and a large salary the solver reports the infinite
    case on the capital at retirement, while the rates it displays, 60 and
    50 percent, come from the inputs. *)
Lemma salary_phase_breaks_equivalence :
  let r := result (Part001.calculateZCD 100 60 0 100 1000 1) in
  ~ (spendingRate r < sustainableRate r <-> isInfinite r = true).
Proof.
  cbv zeta. unfold Part001.calculateZCD, Part001.workingYears. at_reals.
  decide_tests. cbv iota beta. decide_tests. simpl.
  intros [_ Hinf]. specialize (Hinf eq_refl). lra.
Qed.

End SolverAtReals.

(** C4, as the code has it: the solver has no test on the sign of [R].
    In any arithmetic the branch it takes is decided by three tests alone,
    [B / A < (R - 1) / R], [|R - 1| < 0.0001] and [K - A <= 0], and when all
    three fail the closed form is evaluated, [Math.log] being called on
    [(K - B) / (K - A)] and on [R] whatever their signs.  On binary64, and
    whatever [Math.log] is: with a growth of -300 percent [R] is -2 and the
    two calls are made, on about -2 and on -2; with a growth of -100 percent
    and a negative starting amount [R] is 0 and the calls are made on -0.5
    and on 0; with a growth of -100 percent and a positive starting amount
    the run ends in the branch for [K - A <= 0], with 0 years. *)
Theorem nonpositive_R_takes_general_branches :
  (forall (num : Type) (H : Arith num) (A B inflation growth : num),
     let R := ((#1 + growth / #100) / (#1 + inflation / #100))%js in
     let K := (B * R / (R - #1))%js in
     let r := result (Page.calculateZCD A B inflation growth) in
     let calls := Page.calculateZCD_logCalls A B inflation growth in
     Part000.calculateZCD A B inflation growth = r /\
     ((B / A <? (R - #1) / R)%js = true ->
      isInfinite r = true /\ calls = []) /\
     ((B / A <? (R - #1) / R)%js = false ->
      isInfinite r = false /\
      ((nabs (R - #1) <? tolerance)%js = true ->
       zcd r = ZNum (nfloor (A / B))%js /\ calls = []) /\
      ((nabs (R - #1) <? tolerance)%js = false ->
       ((K - A <=? #0)%js = true -> zcd r = ZNum #0%js /\ calls = []) /\
       ((K - A <=? #0)%js = false ->
        zcd r = ZNum (nfloor (#1 + nlog ((K - B) / (K - A)) / nlog R))%js /\
        calls = [((K - B) / (K - A))%js; R])))) /\
  (forall log : float -> float,
     let calls := Page.calculateZCD_logCalls (H := FloatArith log) in
     let solve := Page.calculateZCD (H := FloatArith log) in
     ((1 + -300 / 100) / (1 + 0 / 100) = -2 /\
      calls 100 200 0 (-300) = [-1.9999999999999991; -2] /\
      zcd (result (solve 100 200 0 (-300)))
      = ZNum (F64.floor (1 + log (-1.9999999999999991) / log (-2))) /\
      (1 + -100 / 100) / (1 + 0 / 100) = 0 /\
      calls (-100) 50 0 (-100) = [-0.5; 0] /\
      zcd (result (solve (-100) 50 0 (-100)))
      = ZNum (F64.floor (1 + log (-0.5) / log 0)) /\
      calls 100 50 0 (-100) = [] /\
      isInfinite (result (solve 100 50 0 (-100))) = false /\
      zcd (result (solve 100 50 0 (-100))) = ZNum 0)%float).
Proof.
  split.
  - intros num H A B inflation growth R K r calls. subst r calls.
    split; [apply Part000_result|].
    unfold Page.calculateZCD, Page.calculateZCD_logCalls, finiteYears,
      logCalls.
    fold R. fold K.
    split; [intros Hinf; rewrite Hinf; split; reflexivity|].
    intros Hinf. rewrite Hinf. cbn [result isInfinite zcd].
    split; [reflexivity|]. split.
    + intros Hnear. rewrite Hnear. split; reflexivity.
    + intros Hnear. rewrite Hnear.
      split; intros HK; rewrite HK; split; reflexivity.
  - intros log calls solve. subst calls solve.
    repeat split; vm_compute; reflexivity.
Qed.

Section NonPositiveGrowthFactorRuns.
Local Open Scope R_scope.

Lemma nonpositive_R_takes_general_branches_witness :
  Page.calculateZCD_logCalls 100 200 0 (-300)
  = [ (200 * ((1 + -300 / 100) / (1 + 0 / 100))
         / ((1 + -300 / 100) / (1 + 0 / 100) - 1) - 200)
      / (200 * ((1 + -300 / 100) / (1 + 0 / 100))
         / ((1 + -300 / 100) / (1 + 0 / 100) - 1) - 100);
      (1 + -300 / 100) / (1 + 0 / 100) ].
Proof.
  destruct nonpositive_R_takes_general_branches as (Hany & _).
  destruct (Hany _ RealArith 100 200 0 (-300)) as (_ & _ & Hfinite).
  destruct Hfinite as (_ & _ & Hgeneral).
  - at_reals. apply Rltb_false. lra.
  - destruct Hgeneral as (_ & Hlog).
    + at_reals. rewrite tolerance_real. apply Rltb_false. rsolve.
    + apply Hlog. at_reals. apply Rleb_false. lra.
Defined.

(** With a growth of -300 percent [R] is -2, and the closed form calls
    [Math.log] on it. *)
Lemma log_called_on_negative_R :
  let R := (1 + -300 / 100) / (1 + 0 / 100) in
  R <= 0 /\
  exists x, In x (Page.calculateZCD_logCalls 100 200 0 (-300)) /\ x = R /\ x <= 0.
Proof.
  cbv zeta. split; [lra|].
  exists ((1 + -300 / 100) / (1 + 0 / 100)).
  split; [|split; [reflexivity|lra]].
  unfold Page.calculateZCD_logCalls, logCalls. at_reals.
  rewrite tolerance_real. decide_tests. simpl. auto.
Qed.

End NonPositiveGrowthFactorRuns.

(** ** The projection [calculateZCD] ends with *)

Section NumericHorizon.
Context {num : Type} `{Arith num}.
Local Open Scope js_scope.

Variables G Inf maxYears : num.

Lemma loopWhile_eq fuel year counter st :
  Page.loopWhile G Inf maxYears fuel year counter st
  = if counter <=? maxYears then
      match fuel with
      | O => None
      | S fuel' =>
          if nleb (Page.balance st) #0
          then Some (fst (Page.loopBody G Inf year st))
          else Page.loopWhile G Inf maxYears fuel' (S year) (counter + #1)
                 (fst (Page.loopBody G Inf year st))
      end
    else Some st.
Proof.
  destruct fuel as [|fuel]; [reflexivity|]. cbn [Page.loopWhile].
  unfold Page.loopBody, Page.balance.
  destruct (nleb counter maxYears); [|reflexivity].
  destruct (nleb _ _); reflexivity.
Qed.

Lemma loop_eq n year st :
  Page.loop G Inf (S n) year st
  = if nleb (Page.balance st) #0
    then fst (Page.loopBody G Inf year st)
    else Page.loop G Inf n (S year) (fst (Page.loopBody G Inf year st)).
Proof.
  cbn [Page.loop]. unfold Page.loopBody, Page.balance.
  destruct (nleb _ _); reflexivity.
Qed.

(** When the counter passes the test [n] times and fails it then, the loop
    run against the number makes the passes of the loop over [n] years. *)
Lemma loopWhile_loop n : forall fuel year counter st,
  (forall k, (k < n)%nat -> (counterAfter k counter <=? maxYears) = true) ->
  (counterAfter n counter <=? maxYears) = false ->
  (n <= fuel)%nat ->
  Page.loopWhile G Inf maxYears fuel year counter st
  = Some (Page.loop G Inf n year st).
Proof.
  induction n as [|n IH]; intros fuel year counter st Hin Hout Hfuel.
  - rewrite loopWhile_eq. change (counterAfter 0 counter) with counter in Hout.
    now rewrite Hout.
  - rewrite loopWhile_eq, loop_eq.
    pose proof (Hin 0%nat ltac:(lia)) as H0.
    change (counterAfter 0 counter) with counter in H0.
    rewrite H0. destruct fuel as [|fuel]; [lia|].
    destruct (nleb (Page.balance st) #0); [reflexivity|].
    apply IH.
    + intros k Hk. specialize (Hin (S k) ltac:(lia)).
      unfold counterAfter in *. now rewrite Nat.iter_succ_r in Hin.
    + unfold counterAfter in *. now rewrite Nat.iter_succ_r in Hout.
    + lia.
Qed.

End NumericHorizon.

(** [calculateZCD] returns, with the record and the projection over [n]
    years, when the counter passes the test against the horizon [n] times
    and fails it then, and [fuel] allows [n] passes. *)
Lemma calculateZCD_run_returns {num : Type} `{Arith num}
  (A B inflation growth : num) (n fuel : nat) :
  let out := Page.calculateZCD A B inflation growth in
  (forall k, (k < n)%nat -> nleb (counterAfter k (nofZ 1)) (horizon out) = true) ->
  nleb (counterAfter n (nofZ 1)) (horizon out) = false ->
  (n <= fuel)%nat ->
  Page.calculateZCD_run fuel A B inflation growth
  = Some (result out,
          Page.generateYearlyData A B (ndiv growth (nofZ 100))
            (ndiv inflation (nofZ 100)) n).
Proof.
  intros out Hin Hout Hfuel.
  unfold Page.calculateZCD_run, Page.generateYearlyData_run. fold out.
  unfold Page.generateYearlyData.
  now rewrite (loopWhile_loop _ _ _ n fuel 1%nat (nofZ 1) (initial A B)
                 Hin Hout Hfuel).
Qed.


Section NumericHorizonSalary.
Context {num : Type} `{Arith num}.
Local Open Scope js_scope.

Variables G Inf salary : num.
Variable retirementYears : nat.
Variable maxYears : num.

Lemma loopWhile_salary_eq fuel year counter st :
  Part001.loopWhile G Inf salary retirementYears maxYears fuel year counter st
  = if counter <=? maxYears then
      match fuel with
      | O => None
      | S fuel' =>
          if nleb (Part001.balance salary retirementYears year st) #0
          then Some (fst (Part001.loopBody G Inf salary retirementYears year st))
          else Part001.loopWhile G Inf salary retirementYears maxYears fuel'
                 (S year) (counter + #1)
                 (fst (Part001.loopBody G Inf salary retirementYears year st))
      end
    else Some st.
Proof.
  destruct fuel as [|fuel]; [reflexivity|]. cbn [Part001.loopWhile].
  unfold Part001.loopBody, Part001.balance.
  destruct (nleb counter maxYears); [|reflexivity].
  destruct (nleb _ _); reflexivity.
Qed.

Lemma loopWhile_salary_loop n : forall fuel year counter st,
  (forall k, (k < n)%nat -> (counterAfter k counter <=? maxYears) = true) ->
  (counterAfter n counter <=? maxYears) = false ->
  (n <= fuel)%nat ->
  Part001.loopWhile G Inf salary retirementYears maxYears fuel year counter st
  = Some (Part001.loop G Inf salary retirementYears n year st).
Proof.
  induction n as [|n IH]; intros fuel year counter st Hin Hout Hfuel.
  - rewrite loopWhile_salary_eq.
    change (counterAfter 0 counter) with counter in Hout.
    now rewrite Hout.
  - rewrite loopWhile_salary_eq, run_S.
    pose proof (Hin 0%nat ltac:(lia)) as H0.
    change (counterAfter 0 counter) with counter in H0.
    rewrite H0. destruct fuel as [|fuel]; [lia|].
    destruct (nleb (Part001.balance salary retirementYears year st) #0);
      [reflexivity|].
    apply IH.
    + intros k Hk. specialize (Hin (S k) ltac:(lia)).
      unfold counterAfter in *. now rewrite Nat.iter_succ_r in Hin.
    + unfold counterAfter in *. now rewrite Nat.iter_succ_r in Hout.
    + lia.
Qed.

End NumericHorizonSalary.

(** The same for the last revision. *)
Lemma calculateZCD_run_returns_salary {num : Type} `{Arith num}
  (A B inflation growth salary : num) (retirementYears n fuel : nat) :
  let out := Part001.calculateZCD A B inflation growth salary retirementYears in
  (forall k, (k < n)%nat ->
     nleb (counterAfter k (nofZ 1)) (horizon out) = true) ->
  nleb (counterAfter n (nofZ 1)) (horizon out) = false ->
  (n <= fuel)%nat ->
  Part001.calculateZCD_run fuel A B inflation growth salary retirementYears
  = Some (result out,
          Part001.generateYearlyData A B (ndiv growth (nofZ 100))
            (ndiv inflation (nofZ 100)) salary retirementYears n).
Proof.
  intros out Hin Hout Hfuel.
  unfold Part001.calculateZCD_run, Part001.generateYearlyData_run. fold out.
  unfold Part001.generateYearlyData.
  now rewrite (loopWhile_salary_loop _ _ _ _ _ n fuel 1%nat (nofZ 1)
                 (initial A B) Hin Hout Hfuel).
Qed.

(** *** Binary64: the loop counter never becomes [NaN]

    A sum of two numbers that are not [NaN], one of them finite, is not
    [NaN]; from the specification of binary64 addition. *)

Section NotNan.
Local Open Scope Z_scope.

Lemma shr_1_nonneg mrs : 0 <= shr_m mrs -> 0 <= shr_m (shr_1 mrs).
Proof.
  destruct mrs as [m r s]. simpl.
  destruct m as [|[p|p|]|[p|p|]]; simpl; lia.
Qed.

Lemma iter_pos_nonneg (n : positive) : forall mrs,
  0 <= shr_m mrs -> 0 <= shr_m (iter_pos shr_1 n mrs).
Proof.
  induction n as [n IH|n IH|]; intros mrs Hm; simpl.
  - apply IH, IH, shr_1_nonneg, Hm.
  - apply IH, IH, Hm.
  - apply shr_1_nonneg, Hm.
Qed.

Lemma shr_fexp_nonneg prec emax m e l :
  0 <= m -> 0 <= shr_m (fst (shr_fexp prec emax m e l)).
Proof.
  intros Hm. unfold shr_fexp, shr.
  assert (H0 : 0 <= shr_m (shr_record_of_loc m l)).
  { destruct l as [|[ | | ]]; simpl; exact Hm. }
  destruct (fexp prec emax (Zdigits2 m + e) - e); simpl; try exact H0.
  apply iter_pos_nonneg, H0.
Qed.

Lemma round_nearest_even_nonneg m l : 0 <= m -> 0 <= round_nearest_even m l.
Proof.
  intros Hm. unfold round_nearest_even.
  destruct l as [|[ | | ]]; try lia. destruct (Z.even m); lia.
Qed.

Lemma binary_round_aux_not_nan prec emax sx mx ex lx :
  0 <= mx -> binary_round_aux prec emax sx mx ex lx <> S754_nan.
Proof.
  intros Hm. unfold binary_round_aux.
  pose proof (shr_fexp_nonneg prec emax mx ex lx Hm) as H1.
  destruct (shr_fexp prec emax mx ex lx) as [mrs' e']. simpl in H1.
  pose proof (shr_fexp_nonneg prec emax _ e' loc_Exact
                (round_nearest_even_nonneg _ (loc_of_shr_record mrs') H1)) as H2.
  destruct (shr_fexp prec emax _ e' loc_Exact) as [mrs'' e'']. simpl in H2.
  destruct (shr_m mrs''); try discriminate; [|lia].
  destruct (e'' <=? emax - prec); discriminate.
Qed.

Lemma binary_normalize_not_nan prec emax m e s :
  binary_normalize prec emax m e s <> S754_nan.
Proof.
  unfold binary_normalize, binary_round.
  destruct m; [discriminate| |];
    destruct (shl_align _ _ _); apply binary_round_aux_not_nan; lia.
Qed.

End NotNan.

Section Counter.
Local Open Scope float_scope.

Lemma succ_not_nan (c : float) :
  Prim2SF c <> S754_nan -> Prim2SF (c + 1) <> S754_nan.
Proof.
  intros Hc. rewrite FloatAxioms.add_spec.
  change (Prim2SF 1) with (S754_finite false 4503599627370496 (-52)).
  unfold SF64add, SFadd.
  destruct (Prim2SF c) as [s|s| |s m e]; try discriminate; [contradiction|].
  apply binary_normalize_not_nan.
Qed.

Lemma below_infinity (c : float) :
  Prim2SF c <> S754_nan -> (c <=? infinity) = true.
Proof.
  intros Hc. rewrite FloatAxioms.leb_spec.
  change (Prim2SF infinity) with (S754_infinity false).
  destruct (Prim2SF c) as [s|[|]| |s m e]; try reflexivity; contradiction.
Qed.

End Counter.

Section NeverReturns.
Variable log : float -> float.
Local Open Scope float_scope.

Let F : Arith float := FloatArith log.
Existing Instance F.

(** Without withdrawal, growth and inflation the loop variables do not
    change, and against the horizon [infinity] no pass is the last. *)
Lemma loopWhile_no_withdrawal fuel : forall year counter st,
  Prim2SF counter <> S754_nan ->
  currentPortfolio st = 1000000 -> currentBurn st = 0 ->
  Page.loopWhile (0 / 100) (0 / 100) infinity fuel year counter st = None.
Proof.
  induction fuel as [|fuel IH]; intros year counter st Hc Hp Hb;
    rewrite loopWhile_eq; cbn [nleb F FloatArith];
    rewrite (below_infinity counter Hc); [reflexivity|].
  unfold Page.balance, Page.loopBody. rewrite Hp, Hb.
  cbn [nleb nsub nadd nmul nofZ F FloatArith].
  change (1000000 - 0 <=? F64.ofZ 0) with false. cbv iota.
  cbn [fst]. apply IH; [apply succ_not_nan, Hc| |]; vm_compute; reflexivity.
Qed.

Lemma loop_no_withdrawal n : forall year st,
  currentPortfolio st = 1000000 -> currentBurn st = 0 ->
  length (data (Page.loop (0 / 100) (0 / 100) n year st))
  = (length (data st) + n)%nat.
Proof.
  induction n as [|n IH]; intros year st Hp Hb; [cbn; lia|].
  rewrite loop_eq. unfold Page.balance, Page.loopBody. rewrite Hp, Hb.
  cbn [nleb nsub nadd nmul nofZ F FloatArith].
  change (1000000 - 0 <=? F64.ofZ 0) with false. cbv iota. cbn [fst].
  rewrite IH; [|vm_compute; reflexivity|vm_compute; reflexivity].
  cbn [data]. rewrite length_app. cbn. lia.
Qed.

(** C7, as the code has it: on binary64, whatever [Math.log] is, with a
    starting amount of 1,000,000, no withdrawal and growth and inflation
    both 0, [calculateZCD] takes the branch for [R] near 1, where
    [N = floor (A / B)] is [infinity]; it hands the record to [setResult]
    and calls the projection with the horizon [N + 5 = infinity].  The loop
    of the projection is still running after any number of passes, each of
    them pushing one more record: [calculateZCD] does not return.  With a
    starting amount of 0 and equal rates it does return, the spending rate
    being [infinity]; so it does with the sustainable withdrawal, after 5
    passes. *)
Theorem no_withdrawal_never_returns (fuel : nat) :
  let out := Page.calculateZCD 1000000 0 0 0 in
  isInfinite (result out) = false /\
  zcd (result out) = ZNum infinity /\
  horizon out = infinity /\
  Page.calculateZCD_logCalls 1000000 0 0 0 = [] /\
  Page.calculateZCD_run fuel 1000000 0 0 0 = None /\
  length (Page.generateYearlyData 1000000 0 (0 / 100) (0 / 100) fuel)
  = S fuel /\
  Page.calculateZCD_run 1 0 50000 3 3
  = Some (result (Page.calculateZCD 0 50000 3 3),
          [snapshot 0 50000 0; depleted 1 50000]) /\
  spendingRate (result (Page.calculateZCD 0 50000 3 3)) = infinity /\
  Page.calculateZCD_run 4 100 50 0 100 = None /\
  Page.calculateZCD_run 5 100 50 0 100
  = Some (result (Page.calculateZCD 100 50 0 100),
          Page.generateYearlyData 100 50 (100 / 100) (0 / 100) 5).
Proof.
  cbv zeta.
  split; [vm_compute; reflexivity|]. split; [vm_compute; reflexivity|].
  split; [vm_compute; reflexivity|]. split; [vm_compute; reflexivity|].
  split; [|split; [|repeat split; vm_compute; reflexivity]].
  - unfold Page.calculateZCD_run, Page.generateYearlyData_run.
    change (horizon (Page.calculateZCD 1000000 0 0 0)) with infinity.
    cbn [ndiv nofZ F FloatArith].
    change (F64.ofZ 100) with 100. change (F64.ofZ 1) with 1.
    rewrite loopWhile_no_withdrawal; [reflexivity| |reflexivity|reflexivity].
    vm_compute. discriminate.
  - unfold Page.generateYearlyData.
    rewrite loop_no_withdrawal by reflexivity. reflexivity.
Qed.

End NeverReturns.

(** ** The closed form in exact arithmetic *)

Section ClosedFormValue.
Local Open Scope R_scope.

Lemma ln_le x y : 0 < x -> x <= y -> ln x <= ln y.
Proof.
  intros Hx [Hlt|Heq].
  - left. now apply ln_increasing.
  - subst y. right. reflexivity.
Qed.

Lemma ln_pos x : 1 < x -> 0 < ln x.
Proof. intros Hx. rewrite <- ln_1. apply ln_increasing; lra. Qed.

(** The floor of a real between two consecutive integers. *)
Lemma Rfloor_between (x : R) (z : Z) :
  IZR z <= x < IZR z + 1 -> Rfloor x = IZR z.
Proof.
  intros [Hlo Hhi]. unfold Rfloor. f_equal. symmetry.
  apply Int_part_spec. lra.
Qed.

(** [floor (1 + log x / log R)] when [x] lies between two consecutive powers
    of [R]. *)
Lemma Rfloor_closed_form (R x : R) (n : nat) :
  1 < R -> R ^ n <= x -> x < R ^ S n ->
  Rfloor (1 + ln x / ln R) = INR (S n).
Proof.
  intros HR Hlo Hhi.
  pose proof (ln_pos R HR) as HlnR.
  assert (Hpow : 0 < R ^ n) by (apply pow_lt; lra).
  assert (Hx : 0 < x) by lra.
  assert (Hl : INR n * ln R <= ln x).
  { rewrite <- ln_pow by lra. apply ln_le; assumption. }
  assert (Hh : ln x < INR (S n) * ln R).
  { rewrite <- ln_pow by lra. apply ln_increasing; assumption. }
  rewrite S_INR in Hh |- *.
  set (q := ln x / ln R).
  assert (Hq : q * ln R = ln x) by (unfold q; field; lra).
  assert (Hq1 : INR n <= q).
  { apply Rmult_le_reg_r with (ln R); [exact HlnR|]. lra. }
  assert (Hq2 : q < INR n + 1).
  { apply Rmult_lt_reg_r with (ln R); [exact HlnR|]. lra. }
  rewrite <- S_INR, INR_IZR_INZ. apply Rfloor_between.
  rewrite <- INR_IZR_INZ, S_INR. lra.
Qed.

(** The first scenario of the specification, [A = 1,000,000],
    [B = 50,000], inflation 3 percent, growth 7 percent: [R = 107/103],
    [K = 1,337,500], and [(K - B) / (K - A) = 103/27] lies between the 35th
    and the 36th power of [R]. *)
Lemma scenario_one_years :
  finiteYears 1000000 50000 ((1 + 7 / 100) / (1 + 3 / 100)) = 36.
Proof.
  unfold finiteYears. at_reals. rewrite tolerance_real.
  decide_tests. cbv zeta.
  replace ((50000 * ((1 + 7 / 100) / (1 + 3 / 100))
            / ((1 + 7 / 100) / (1 + 3 / 100) - 1) - 50000)
           / (50000 * ((1 + 7 / 100) / (1 + 3 / 100))
              / ((1 + 7 / 100) / (1 + 3 / 100) - 1) - 1000000))
    with (103 / 27) by lra.
  replace ((1 + 7 / 100) / (1 + 3 / 100)) with (107 / 103) by lra.
  rewrite (Rfloor_closed_form (107 / 103) (103 / 27) 35) by lra.
  simpl. lra.
Qed.

(** C6, as the code has it: on the first scenario the solver reports a
    finite result, a spending rate of 5 percent above the sustainable
    [400/107] percent (about 3.738), and 36 years. *)
Theorem scenario_one_result :
  let r := result (Page.calculateZCD 1000000 50000 3 7) in
  isInfinite r = false /\
  zcd r = ZNum 36 /\
  spendingRate r = 5 /\
  sustainableRate r = 400 / 107 /\
  3.738 < sustainableRate r < 3.739.
Proof.
  cbv zeta. unfold Page.calculateZCD. at_reals.
  decide_tests. simpl. rewrite scenario_one_years.
  repeat split; lra.
Qed.

(** The year count of the first scenario is not within ten years of 25. *)
Lemma scenario_one_not_25 :
  ~ exists N,
      zcd (result (Page.calculateZCD 1000000 50000 3 7)) = ZNum N /\
      Rabs (N - 25) <= 10.
Proof.
  intros (N & HN & Hnear). revert HN.
  unfold Page.calculateZCD. at_reals.
  decide_tests. simpl. rewrite scenario_one_years.
  intros HN. injection HN as <-.
  revert Hnear. rsolve.
Qed.

(** [R = 2], [A = 100]: with [B = 60] the closed form gives
    [floor (1 + log 3 / log 2) = 2]. *)
Lemma doubling_years_60 :
  finiteYears 100 60 ((1 + 100 / 100) / (1 + 0 / 100)) = 2.
Proof.
  unfold finiteYears. at_reals. rewrite tolerance_real.
  decide_tests. cbv zeta.
  replace ((60 * ((1 + 100 / 100) / (1 + 0 / 100))
            / ((1 + 100 / 100) / (1 + 0 / 100) - 1) - 60)
           / (60 * ((1 + 100 / 100) / (1 + 0 / 100))
              / ((1 + 100 / 100) / (1 + 0 / 100) - 1) - 100))
    with 3 by lra.
  replace ((1 + 100 / 100) / (1 + 0 / 100)) with 2 by lra.
  rewrite (Rfloor_closed_form 2 3 1) by lra.
  simpl. lra.
Qed.

(** C8: with [A = 100], no inflation and a growth of 100 percent, a
    withdrawal of 50 is exactly the sustainable one: the test for the
    infinite case, a strict one, fails, [K = A], and the solver answers 0
    years; with the higher withdrawal 60 it answers 2 years. *)
Theorem higher_withdrawal_more_years :
  let low := result (Page.calculateZCD 100 50 0 100) in
  let high := result (Page.calculateZCD 100 60 0 100) in
  isInfinite low = false /\ zcd low = ZNum 0 /\
  isInfinite high = false /\ zcd high = ZNum 2.
Proof.
  cbv zeta. unfold Page.calculateZCD. at_reals.
  decide_tests. simpl. rewrite doubling_years_60.
  unfold finiteYears. at_reals. rewrite tolerance_real.
  decide_tests. repeat split.
Qed.

End ClosedFormValue.

(** ** The projection *)

Section ProjectionRecords.
Context {num : Type} `{Arith num}.
Local Open Scope js_scope.

(** Passes that stay in the loop multiply the withdrawal by [1 + Inf] each. *)
Lemma burn_after_passes G Inf salary retirementYears k : forall year st,
  (forall j, (j < k)%nat ->
     (Part001.balance salary retirementYears (year + j)
        (Part001.loop G Inf salary retirementYears j year st) <=? #0) = false) ->
  currentBurn (Part001.loop G Inf salary retirementYears k year st)
  = Nat.iter k (fun b => b * (#1 + Inf)) (currentBurn st).
Proof.
  induction k as [|k IH]; intros year st Hk; [reflexivity|].
  assert (H0 : (Part001.balance salary retirementYears year st <=? #0) = false).
  { specialize (Hk 0%nat). rewrite Nat.add_0_r in Hk. apply Hk. lia. }
  rewrite run_S, H0, IH.
  - rewrite Nat.iter_succ_r. f_equal.
    unfold Part001.loopBody. fold (Part001.balance salary retirementYears year st).
    rewrite H0. reflexivity.
  - intros j Hj. specialize (Hk (S j)). rewrite run_S, H0 in Hk.
    replace (S year + j)%nat with (year + S j)%nat by lia.
    apply Hk. lia.
Qed.

(** The record of year [N] in the last revision: what the pass for [N]
    pushes from the loop variables it starts with. *)
Lemma record_of_year_salary A B G Inf salary retirementYears maxYears N r :
  (1 <= N)%nat ->
  nth_error (Part001.generateYearlyData A B G Inf salary retirementYears maxYears) N
  = Some r ->
  let st := Part001.enteringYear A B G Inf salary retirementYears N in
  let withdrawn := currentBurn st in
  let left := Part001.balance salary retirementYears N st in
  withdrawn = Nat.iter (N - 1) (fun b => b * (#1 + Inf)) B /\
  year r = N /\
  if left <=? #0
  then burnRate r = withdrawn /\ portfolioValue r = #0 /\
       length (Part001.generateYearlyData A B G Inf salary retirementYears maxYears)
       = S N
  else burnRate r = withdrawn * (#1 + Inf) /\
       portfolioValue r = left * (#1 + G).
Proof.
  intros HN Hr st withdrawn left.
  unfold Part001.generateYearlyData in *.
  replace N with (length (data (initial A B)) + (N - 1))%nat in Hr at 1
    by (simpl; lia).
  apply run_nth in Hr. destruct Hr as (_ & Hrec & Hbefore & Hstop).
  replace (1 + (N - 1))%nat with N in * by lia.
  fold (Part001.enteringYear A B G Inf salary retirementYears N) in Hrec, Hstop.
  fold st in Hrec, Hstop. fold left in Hstop.
  split.
  { unfold withdrawn, st, Part001.enteringYear.
    now rewrite burn_after_passes by exact Hbefore. }
  subst r. unfold Part001.pushed. fold left. cbv zeta.
  destruct (left <=? #0).
  - simpl. repeat split. rewrite Hstop by reflexivity. simpl. lia.
  - simpl. repeat split.
Qed.

(** C5, as the code has it: the record of year [N >= 1] holds in [burnRate]
    the withdrawal already multiplied by [1 + Inf], the amount the next year
    will withdraw, not the amount withdrawn in year [N]; only the record
    pushed when the money runs out, the last one, holds the amount of its
    own year, with a portfolio value of 0. *)
Theorem record_of_year A B G Inf maxYears N r :
  (1 <= N)%nat ->
  nth_error (Page.generateYearlyData A B G Inf maxYears) N = Some r ->
  let st := Page.enteringYear A B G Inf N in
  let withdrawn := currentBurn st in
  withdrawn = Nat.iter (N - 1) (fun b => b * (#1 + Inf)) B /\
  year r = N /\
  if Page.balance st <=? #0
  then burnRate r = withdrawn /\ portfolioValue r = #0 /\
       length (Page.generateYearlyData A B G Inf maxYears) = S N
  else burnRate r = withdrawn * (#1 + Inf) /\
       portfolioValue r = Page.balance st * (#1 + G).
Proof.
  intros HN Hr. cbv zeta.
  rewrite <- (generateYearlyData_no_salary A B G Inf #0 maxYears) in *.
  rewrite <- (enteringYear_no_salary A B G Inf #0 N).
  rewrite <- (balance_retired #0 0 N) by lia.
  exact (record_of_year_salary A B G Inf #0 0 maxYears N r HN Hr).
Qed.

End ProjectionRecords.

Section ProjectionRuns.
Local Open Scope R_scope.

Lemma record_of_year_witness :
  let d := Page.generateYearlyData 1000000 50000 (7 / 100) (3 / 100) 2 in
  let st := Page.enteringYear 1000000 50000 (7 / 100) (3 / 100) 1 in
  exists r, nth_error d 1 = Some r /\
            burnRate r = currentBurn st * (1 + 3 / 100).
Proof.
  cbv zeta.
  assert (Hr : nth_error (Page.generateYearlyData 1000000 50000 (7 / 100) (3 / 100) 2) 1
               = Some (snapshot 1 (50000 * (1 + 3 / 100))
                         ((1000000 - 50000) * (1 + 7 / 100)))).
  { project. reflexivity. }
  eexists. split; [exact Hr|].
  destruct (record_of_year 1000000 50000 (7 / 100) (3 / 100) 2 1 _
              (le_n 1) Hr) as (_ & _ & Hif).
  revert Hif. unfold Page.balance. project.
  intros [Hburn _]. exact Hburn.
Defined.

(** The record of year 1 holds 51,500, the withdrawal of year 2; year 1
    withdrew 50,000. *)
Lemma year_one_record_holds_next_withdrawal :
  let d := Page.generateYearlyData 1000000 50000 (7 / 100) (3 / 100) 2 in
  let withdrawn :=
    currentBurn (Page.enteringYear 1000000 50000 (7 / 100) (3 / 100) 1) in
  exists r,
    nth_error d 1 = Some r /\ length d = 3%nat /\
    withdrawn = 50000 /\ burnRate r = 51500 /\ burnRate r <> withdrawn.
Proof.
  cbv zeta. project.
  eexists. split; [reflexivity|]. simpl. repeat split; try lra.
Qed.

End ProjectionRuns.

(** ** The run of [page.tsx]'s projection, year by year *)

Section PageRun.
Context {num : Type} `{Arith num}.
Local Open Scope js_scope.

Variables A B G Inf : num.

Let entering := Page.enteringYear A B G Inf.
Let project := Page.generateYearlyData A B G Inf.

Lemma stays_salary y :
  Page.stays A B G Inf y ->
  forall j, (j < y)%nat ->
    (Part001.balance #0 0 (1 + j)
       (Part001.loop G Inf #0 0 j 1 (initial A B)) <=? #0) = false.
Proof.
  intros Hs j Hj.
  rewrite balance_retired, loop_retired by lia.
  specialize (Hs (S j)). unfold Page.enteringYear in Hs.
  replace (S j - 1)%nat with j in Hs by lia.
  apply Hs. lia.
Qed.

Lemma record_zero maxYears :
  nth_error (project maxYears) 0 = Some (snapshot 0 B A).
Proof.
  unfold project, Page.generateYearlyData.
  rewrite <- (loop_retired G Inf #0 0) by lia.
  rewrite run_prefix by (simpl; lia). reflexivity.
Qed.

(** A record at position [y >= 1] is the one the pass for [y] pushes, the
    passes before it stay in the loop, and it is the last one when the pass
    leaves the loop. *)
Lemma record_pushed maxYears y r :
  (1 <= y)%nat ->
  nth_error (project maxYears) y = Some r ->
  (y <= maxYears)%nat /\
  r = Page.pushed G Inf y (entering y) /\
  Page.stays A B G Inf (y - 1) /\
  ((Page.balance (entering y) <=? #0) = true ->
   length (project maxYears) = S y).
Proof.
  intros Hy Hr. unfold project, entering, Page.generateYearlyData in *.
  rewrite <- (loop_retired G Inf #0 0) in * by lia.
  replace y with (length (data (initial A B)) + (y - 1))%nat in Hr at 1
    by (simpl; lia).
  apply run_nth in Hr. destruct Hr as (Hlt & Hrec & Hbefore & Hstop).
  replace (1 + (y - 1))%nat with y in * by lia.
  rewrite pushed_retired, loop_retired in Hrec by lia.
  rewrite balance_retired, loop_retired in Hstop by lia.
  repeat split.
  - lia.
  - exact Hrec.
  - intros y' Hy'. specialize (Hbefore (y' - 1)%nat).
    rewrite balance_retired, loop_retired in Hbefore by lia.
    unfold Page.enteringYear. apply Hbefore. lia.
  - intros Hz. rewrite (Hstop Hz). simpl. lia.
Qed.

(** The pass for [y] is reached when the passes before it stay in the
    loop. *)
Lemma record_reached maxYears y :
  (1 <= y <= maxYears)%nat ->
  Page.stays A B G Inf (y - 1) ->
  nth_error (project maxYears) y = Some (Page.pushed G Inf y (entering y)).
Proof.
  intros Hy Hs. unfold project, entering, Page.generateYearlyData.
  rewrite <- (loop_retired G Inf #0 0) by lia.
  replace y with (length (data (initial A B)) + (y - 1))%nat at 1
    by (simpl; lia).
  rewrite run_reaches.
  - replace (1 + (y - 1))%nat with y by lia.
    now rewrite pushed_retired, loop_retired by lia.
  - lia.
  - apply stays_salary. exact Hs.
Qed.

(** The loop variables of the next year after a pass that stays. *)
Lemma entering_next y :
  (1 <= y)%nat ->
  Page.stays A B G Inf y ->
  currentPortfolio (entering (S y)) = Page.balance (entering y) * (#1 + G) /\
  currentBurn (entering (S y)) = currentBurn (entering y) * (#1 + Inf).
Proof.
  intros Hy Hs. unfold entering, Page.enteringYear.
  rewrite <- !(loop_retired G Inf #0 0) by lia.
  replace (S y - 1)%nat with ((y - 1) + 1)%nat by lia.
  rewrite run_continue.
  2:{ intros j Hj. apply stays_salary with (y := y); [exact Hs|lia]. }
  replace (1 + (y - 1))%nat with y by lia.
  rewrite run_S. simpl Part001.loop.
  assert (Hz : (Part001.balance #0 0 y
                  (Part001.loop G Inf #0 0 (y - 1) 1 (initial A B)) <=? #0) = false).
  { pose proof (stays_salary y Hs (y - 1)%nat) as Hlast.
    replace (1 + (y - 1))%nat with y in Hlast by lia. apply Hlast. lia. }
  assert (Hbody : forall st,
             (Part001.balance #0 0 y st <=? #0) = false ->
             fst (Part001.loopBody G Inf #0 0 y st)
             = {| currentPortfolio := Part001.balance #0 0 y st * (#1 + G);
                  currentBurn := currentBurn st * (#1 + Inf);
                  data := data st ++ [Part001.pushed G Inf #0 0 y st] |}).
  { intros st Hst. unfold Part001.loopBody, Part001.pushed.
    fold (Part001.balance #0 0 y st). cbv zeta. now rewrite Hst. }
  rewrite Hz, Hbody by exact Hz. simpl.
  now rewrite balance_retired by lia.
Qed.

(** The pass that leaves the loop pushes the last record. *)
Lemma record_last maxYears y :
  (1 <= y <= maxYears)%nat ->
  Page.stays A B G Inf (y - 1) ->
  (Page.balance (entering y) <=? #0) = true ->
  length (project maxYears) = S y /\
  nth_error (project maxYears) y = Some (depleted y (currentBurn (entering y))).
Proof.
  intros Hy Hs Hz.
  pose proof (record_reached maxYears y Hy Hs) as Hr.
  split.
  - destruct (record_pushed maxYears y _ (proj1 Hy) Hr) as (_ & _ & _ & Hlen).
    exact (Hlen Hz).
  - rewrite Hr. unfold Page.pushed. now rewrite Hz.
Qed.

(** Passes that all stay in the loop push one record each. *)
Lemma stays_length maxYears :
  Page.stays A B G Inf maxYears -> length (project maxYears) = S maxYears.
Proof.
  intros Hs. unfold project, Page.generateYearlyData.
  rewrite <- (loop_retired G Inf #0 0) by lia.
  rewrite run_continue_length; [reflexivity|].
  apply stays_salary. exact Hs.
Qed.

End PageRun.

(** ** The shape of a projection *)

(** Every record carries its position as its year, and there is at most one
    record per year up to the horizon: for any arithmetic and any input. *)
Lemma record_year {num : Type} `{Arith num} (A B G Inf : num)
  (maxYears i : nat) (r : YearlyData num) :
  nth_error (Page.generateYearlyData A B G Inf maxYears) i = Some r ->
  year r = i /\ (i <= maxYears)%nat.
Proof.
  intros Hr. destruct i as [|k].
  - rewrite record_zero in Hr. injection Hr as <-. simpl. split; [reflexivity|lia].
  - destruct (record_pushed A B G Inf maxYears (S k) r) as (Hle & Hrec & _);
      [lia|exact Hr|].
    split; [|exact Hle]. subst r. unfold Page.pushed.
    destruct (nleb _ _); reflexivity.
Qed.

(** A record at position [y >= 1] of the last revision's projection is the
    one the pass for [y] pushes; the passes before it stay in the loop, and
    it is the last one when the pass leaves the loop. *)
Lemma record_pushed_salary {num : Type} `{Arith num} (A B G Inf salary : num)
  (retirementYears maxYears y : nat) (r : YearlyData num) :
  (1 <= y)%nat ->
  nth_error (Part001.generateYearlyData A B G Inf salary retirementYears maxYears) y
  = Some r ->
  (y <= maxYears)%nat /\
  r = Part001.pushed G Inf salary retirementYears y
        (Part001.enteringYear A B G Inf salary retirementYears y) /\
  (forall j, (1 <= j < y)%nat ->
     nleb (Part001.balance salary retirementYears j
             (Part001.enteringYear A B G Inf salary retirementYears j))
          (nofZ 0) = false) /\
  (nleb (Part001.balance salary retirementYears y
           (Part001.enteringYear A B G Inf salary retirementYears y))
        (nofZ 0) = true ->
   length (Part001.generateYearlyData A B G Inf salary retirementYears maxYears)
   = S y).
Proof.
  intros Hy Hr. unfold Part001.generateYearlyData, Part001.enteringYear in *.
  replace y with (length (data (initial A B)) + (y - 1))%nat in Hr at 1
    by (simpl; lia).
  apply run_nth in Hr. destruct Hr as (Hlt & Hrec & Hbefore & Hstop).
  replace (1 + (y - 1))%nat with y in * by lia.
  split; [lia|]. split; [exact Hrec|]. split.
  - intros j Hj. specialize (Hbefore (j - 1)%nat).
    replace (1 + (j - 1))%nat with j in Hbefore by lia.
    apply Hbefore. lia.
  - intros Hz. rewrite (Hstop Hz). simpl. lia.
Qed.

Section ProjectionShape.
Local Open Scope R_scope.

Lemma Rleb_false_inv x y : Rleb x y = false -> y < x.
Proof.
  intros E. destruct (Rle_dec x y) as [Hle|Hnle].
  - apply Rleb_iff in Hle. congruence.
  - lra.
Qed.

(** C10, as the code has it.  For any arithmetic and any input: the i-th
    record carries year i, up to the horizon; record 0 holds the starting
    amount; the record of a year [i >= 1] is reached only if the test
    [currentPortfolio <= 0] after the withdrawal has failed in every year
    before, and it is either the record of value 0 pushed when the test
    succeeds in year [i], which is then the last one, or it holds the
    balance that failed the test times [1 + G].  In [page.tsx] and in the
    last revision.  With a positive starting amount and a growth above -100
    percent, in exact arithmetic, every record but the last has a positive
    portfolio value, no value is negative, and a record of value 0 is the
    last one.  On binary64 it need not be: with a starting amount of 1, no
    withdrawal and a growth of -99.9 percent the product underflows, and
    the record of year 108 holds 0 and is followed by the record of year
    109. *)
Theorem projection_shape :
  (forall (num : Type) (H : Arith num) (A B G Inf : num)
          (maxYears i : nat) (r : YearlyData num),
     nth_error (Page.generateYearlyData A B G Inf maxYears) i = Some r ->
     year r = i /\ (i <= maxYears)%nat) /\
  (forall (num : Type) (H : Arith num) (A B G Inf salary : num)
          (retirementYears maxYears i : nat) (r : YearlyData num),
     (nth_error (Page.generateYearlyData A B G Inf maxYears) i = Some r ->
      (i = 0%nat /\ r = snapshot 0 B A) \/
      ((1 <= i)%nat /\
       Page.stays A B G Inf (i - 1) /\
       let st := Page.enteringYear A B G Inf i in
       if (Page.balance st <=? #0)%js
       then r = depleted i (currentBurn st) /\
            length (Page.generateYearlyData A B G Inf maxYears) = S i
       else r = snapshot i (currentBurn st * (#1 + Inf))%js
                           (Page.balance st * (#1 + G))%js)) /\
     (let d := Part001.generateYearlyData A B G Inf salary retirementYears
                 maxYears in
      nth_error d i = Some r ->
      year r = i /\ (i <= maxYears)%nat /\
      ((i = 0%nat /\ r = snapshot 0 B A) \/
       ((1 <= i)%nat /\
        (forall j, (1 <= j < i)%nat ->
           (Part001.balance salary retirementYears j
              (Part001.enteringYear A B G Inf salary retirementYears j)
            <=? #0)%js = false) /\
        let st := Part001.enteringYear A B G Inf salary retirementYears i in
        let left := Part001.balance salary retirementYears i st in
        if (left <=? #0)%js
        then r = depleted i (currentBurn st) /\ length d = S i
        else r = snapshot i (currentBurn st * (#1 + Inf))%js
                            (left * (#1 + G))%js)))) /\
  (forall (A B G Inf : R) (maxYears i : nat) (r : YearlyData R),
     0 < A -> 0 < 1 + G ->
     nth_error (Page.generateYearlyData A B G Inf maxYears) i = Some r ->
     let d := Page.generateYearlyData A B G Inf maxYears in
     0 <= portfolioValue r /\
     ((S i < length d)%nat -> 0 < portfolioValue r) /\
     (portfolioValue r = 0 ->
      (1 <= i)%nat /\ length d = S i /\
      Page.balance (Page.enteringYear A B G Inf i) <= 0 /\
      forall y, (1 <= y < i)%nat ->
        0 < Page.balance (Page.enteringYear A B G Inf y))) /\
  (forall log : float -> float,
     let d := Page.generateYearlyData (H := FloatArith log)
                1%float 0%float (-0.999)%float 0%float 200 in
     ((0 <? 1 + -0.999) = true /\
      length d = 110%nat /\
      nth_error d 107 = Some (snapshot 107 0 9.9801260459931802e-322) /\
      nth_error d 108 = Some (snapshot 108 0 0) /\
      nth_error d 109 = Some (depleted (H := FloatArith log) 109 0))%float).
Proof.
  split; [|split; [|split]].
  { intros num H A B G Inf maxYears i r Hr.
    exact (record_year A B G Inf maxYears i r Hr). }
  { intros num H A B G Inf salary retirementYears maxYears i r. split.
    - intros Hr. destruct i as [|k].
      + left. rewrite record_zero in Hr. injection Hr as <-.
        split; reflexivity.
      + right.
        destruct (record_pushed A B G Inf maxYears (S k) r)
          as (_ & Hrec & Hstays & Hlen); [lia|exact Hr|].
        split; [lia|]. split; [exact Hstays|]. cbv zeta.
        subst r. unfold Page.pushed in *.
        destruct (nleb (Page.balance (Page.enteringYear A B G Inf (S k))) #0%js).
        * split; [reflexivity|]. apply Hlen. reflexivity.
        * reflexivity.
    - cbv zeta. intros Hr. destruct i as [|k].
      + unfold Part001.generateYearlyData in Hr.
        rewrite run_prefix in Hr by (simpl; lia).
        simpl in Hr. injection Hr as <-.
        split; [reflexivity|]. split; [lia|]. left. split; reflexivity.
      + destruct (record_pushed_salary A B G Inf salary retirementYears
                    maxYears (S k) r) as (Hle & Hrec & Hbefore & Hlen);
          [lia|exact Hr|].
        assert (Hyear : year r = S k).
        { subst r. unfold Part001.pushed. cbv zeta.
          destruct (nleb _ _); reflexivity. }
        split; [exact Hyear|]. split; [exact Hle|]. right.
        split; [lia|]. split; [exact Hbefore|].
        subst r. unfold Part001.pushed in *. cbv zeta in *.
        destruct (nleb (Part001.balance salary retirementYears (S k)
                          (Part001.enteringYear A B G Inf salary
                             retirementYears (S k))) #0%js).
        * split; [reflexivity|]. apply Hlen. reflexivity.
        * reflexivity. }
  2:{ intros log d. subst d. repeat split; vm_compute; reflexivity. }
  intros A B G Inf maxYears i r HA HG Hr d.
  destruct i as [|k].
  - rewrite record_zero in Hr. injection Hr as <-. simpl.
    repeat split; try lra; intros; lra.
  - destruct (record_pushed A B G Inf maxYears (S k) r) as (_ & Hrec & Hstays & Hlen);
      [lia|exact Hr|].
    fold d in Hlen. subst r. unfold Page.pushed in *. at_reals.
    destruct (Rleb (Page.balance (Page.enteringYear A B G Inf (S k))) 0) eqn:E.
    + unfold Page.stays, Page.balance in *. simpl.
      specialize (Hlen eq_refl). apply Rleb_iff in E.
      split; [lra|]. split; [intros Hlt; lia|]. intros _.
      split; [lia|]. split; [exact Hlen|]. split; [exact E|].
      intros y Hy. apply Rleb_false_inv. apply Hstays. lia.
    + unfold Page.balance in *. simpl. apply Rleb_false_inv in E.
      assert (Hpos : 0 < (currentPortfolio (Page.enteringYear A B G Inf (S k))
                          - currentBurn (Page.enteringYear A B G Inf (S k)))
                         * (1 + G)).
      { apply Rmult_lt_0_compat; assumption. }
      split; [lra|]. split; [intros _; exact Hpos|]. intros Hzero. lra.
Qed.

(** The same shape in the last revision, whatever the salary and the number
    of working years. *)
Lemma projection_shape_salary (A B G Inf salary : R)
  (retirementYears maxYears i : nat) (r : YearlyData R) :
  0 < A -> 0 < 1 + G ->
  let d := Part001.generateYearlyData A B G Inf salary retirementYears maxYears in
  nth_error d i = Some r ->
  year r = i /\
  (i <= maxYears)%nat /\
  0 <= portfolioValue r /\
  ((S i < length d)%nat -> 0 < portfolioValue r) /\
  (portfolioValue r = 0 ->
   (1 <= i)%nat /\ length d = S i /\
   Part001.balance salary retirementYears i
     (Part001.enteringYear A B G Inf salary retirementYears i) <= 0).
Proof.
  intros HA HG d Hr. unfold d, Part001.generateYearlyData in *.
  destruct i as [|k].
  - rewrite run_prefix in Hr by (simpl; lia).
    simpl in Hr. injection Hr as <-. simpl.
    repeat split; try lia; try lra; intros; lra.
  - replace (S k) with (length (data (initial A B)) + k)%nat in Hr at 1
      by (simpl; lia).
    apply run_nth in Hr. destruct Hr as (Hlt & Hrec & _ & Hstop).
    replace (1 + k)%nat with (S k) in * by lia.
    assert (He : Part001.loop G Inf salary retirementYears k 1 (initial A B)
                 = Part001.enteringYear A B G Inf salary retirementYears (S k)).
    { unfold Part001.enteringYear. now replace (S k - 1)%nat with k by lia. }
    rewrite He in *. subst r. unfold Part001.pushed in *. at_reals.
    set (left := Part001.balance salary retirementYears (S k)
                   (Part001.enteringYear A B G Inf salary retirementYears (S k)))
      in *.
    cbv zeta. destruct (Rleb left 0) eqn:E.
    + specialize (Hstop eq_refl). simpl in Hstop |- *. apply Rleb_iff in E.
      split; [reflexivity|]. split; [lia|]. split; [lra|].
      split; [intros Hl; lia|]. intros _.
      split; [lia|]. split; [lia|exact E].
    + simpl. apply Rleb_false_inv in E.
      assert (Hpos : 0 < left * (1 + G)) by (apply Rmult_lt_0_compat; assumption).
      split; [reflexivity|]. split; [lia|]. split; [lra|].
      split; [intros _; exact Hpos|]. intros Hzero. lra.
Qed.

Lemma projection_shape_witness :
  let d := Page.generateYearlyData 1000000 50000 (7 / 100) (3 / 100) 2 in
  exists r, nth_error d 1 = Some r /\ year r = 1%nat /\ 0 < portfolioValue r.
Proof.
  cbv zeta.
  assert (Hr : nth_error (Page.generateYearlyData 1000000 50000 (7 / 100) (3 / 100) 2) 1
               = Some (snapshot 1 (50000 * (1 + 3 / 100))
                         ((1000000 - 50000) * (1 + 7 / 100)))).
  { project. reflexivity. }
  eexists. split; [exact Hr|].
  assert (HA : 0 < 1000000) by lra.
  assert (HG : 0 < 1 + 7 / 100) by lra.
  destruct projection_shape as (Hany & _ & Hreal & _).
  destruct (Hany _ RealArith 1000000 50000 (7 / 100) (3 / 100) 2%nat 1%nat _ Hr)
    as (Hyear & _).
  destruct (Hreal 1000000 50000 (7 / 100) (3 / 100) 2%nat 1%nat _ HA HG Hr)
    as (_ & Hpos & _).
  split; [exact Hyear|]. apply Hpos.
  project. simpl. lia.
Defined.

(** With a starting amount of 0 the first of the two records has the value
    0; with a growth of -200 percent the record of year 1 has a negative
    value and is followed by another. *)
Lemma zero_capital_before_last :
  (let d := Page.generateYearlyData 0 50000 (7 / 100) (3 / 100) 5 in
   exists r, nth_error d 0 = Some r /\ (1 < length d)%nat /\
             ~ 0 < portfolioValue r) /\
  (let d := Page.generateYearlyData 1000 100 (-200 / 100) (3 / 100) 5 in
   exists r, nth_error d 1 = Some r /\ (2 < length d)%nat /\
             portfolioValue r < 0).
Proof.
  split; cbv zeta.
  - project.
    eexists. split; [reflexivity|]. simpl. split; [lia|lra].
  - project.
    eexists. split; [reflexivity|]. simpl. split; [lia|lra].
Qed.

End ProjectionShape.

(** ** The closed form against the projection *)

Section DepletionYear.
Local Open Scope R_scope.

Variables A B G Inf : R.

Let i := 1 + Inf.
Let g := 1 + G.
Let R := g / i.
Let K := B * R / (R - 1).
Let entering := Page.enteringYear A B G Inf.

Hypothesis HA : 0 < A.
Hypothesis HB : 0 < B.
Hypothesis Hi : 0 < i.
Hypothesis HR : 1 < R.
Hypothesis HK : A < K.

Lemma growth_factor : g = R * i.
Proof. unfold R. field. lra. Qed.

(** [K] is the fixed point of withdrawing [B] and growing by [R]. *)
Lemma critical_fixed_point : R * (K - B) = K.
Proof. unfold K. field. lra. Qed.

Lemma critical_above_burn : 0 < K - B.
Proof.
  replace (K - B) with (B / (R - 1)) by (unfold K; field; lra).
  apply Rdiv_lt_0_compat; lra.
Qed.

(** The loop variables in closed form, as long as the loop is not left. *)
Lemma entering_closed_form y :
  Page.stays A B G Inf y ->
  currentPortfolio (entering (S y)) = i ^ y * (K - (K - A) * R ^ y) /\
  currentBurn (entering (S y)) = B * i ^ y.
Proof.
  induction y as [|y IH]; intros Hs.
  - unfold entering, Page.enteringYear. simpl. split; ring.
  - assert (Hs' : Page.stays A B G Inf y).
    { intros y' Hy'. apply Hs. lia. }
    destruct (IH Hs') as (Hp & Hb).
    destruct (entering_next A B G Inf (S y)) as (Hp' & Hb'); [lia|exact Hs|].
    fold entering in Hp', Hb'. unfold Page.balance in Hp'. at_reals.
    rewrite Hp', Hb', Hp, Hb. fold i g. rewrite growth_factor.
    split; [|simpl; ring].
    replace ((i ^ y * (K - (K - A) * R ^ y) - B * i ^ y) * (R * i))
      with (i ^ S y * (R * (K - B) - (K - A) * R ^ S y)) by (simpl; ring).
    now rewrite critical_fixed_point.
Qed.

Lemma balance_closed_form y :
  Page.stays A B G Inf y ->
  Page.balance (entering (S y)) = i ^ y * ((K - B) - (K - A) * R ^ y).
Proof.
  intros Hs. destruct (entering_closed_form y Hs) as (Hp & Hb).
  unfold Page.balance. at_reals. rewrite Hp, Hb. ring.
Qed.

(** The loop is not left while [(K - A) R^j] stays below [K - B]. *)
Lemma stays_below k :
  (forall j, (j < k)%nat -> (K - A) * R ^ j < K - B) ->
  Page.stays A B G Inf k.
Proof.
  induction k as [|k IH]; intros Hlow.
  - intros y Hy. lia.
  - assert (Hs : Page.stays A B G Inf k).
    { apply IH. intros j Hj. apply Hlow. lia. }
    intros y Hy. destruct (Nat.eq_dec y (S k)) as [->|Hne].
    + at_reals. apply Rleb_false. fold entering.
      rewrite (balance_closed_form k Hs).
      apply Rmult_lt_0_compat; [apply pow_lt; exact Hi|].
      specialize (Hlow k (Nat.lt_succ_diag_r k)). lra.
    + apply Hs. lia.
Qed.

(** It is left in year [k + 1] when [(K - A) R^k] reaches [K - B]. *)
Lemma leaves_at k :
  (forall j, (j < k)%nat -> (K - A) * R ^ j < K - B) ->
  K - B <= (K - A) * R ^ k ->
  Page.stays A B G Inf k /\
  Rleb (Page.balance (entering (S k))) 0 = true.
Proof.
  intros Hlow Hhigh.
  pose proof (stays_below k Hlow) as Hs.
  split; [exact Hs|].
  apply Rleb_true. rewrite (balance_closed_form k Hs).
  assert (Hpow : 0 < i ^ k) by (apply pow_lt; exact Hi).
  assert (Hneg : (K - B) - (K - A) * R ^ k <= 0) by lra.
  nra.
Qed.

(** The continuous year estimate. *)
Let ratio := (K - B) / (K - A).
Let L := ln ratio / ln R.

Lemma ratio_pos : 0 < ratio.
Proof.
  unfold ratio. apply Rdiv_lt_0_compat; [exact critical_above_burn|lra].
Qed.

Lemma estimate_times_log : L * ln R = ln ratio.
Proof. unfold L. field. pose proof (ln_pos R HR). lra. Qed.

Lemma below_estimate j : INR j < L -> (K - A) * R ^ j < K - B.
Proof.
  intros Hj.
  pose proof (ln_pos R HR) as HlnR.
  pose proof ratio_pos as Hratio.
  assert (Hln : ln (R ^ j) < ln ratio).
  { rewrite ln_pow by lra. rewrite <- estimate_times_log.
    apply Rmult_lt_compat_r; assumption. }
  apply ln_lt_inv in Hln; [|apply pow_lt; lra|exact Hratio].
  assert (Hmul : ratio * (K - A) = K - B) by (unfold ratio; field; lra).
  rewrite <- Hmul. rewrite Rmult_comm.
  apply Rmult_lt_compat_r; [lra|exact Hln].
Qed.

Lemma above_estimate j : L <= INR j -> K - B <= (K - A) * R ^ j.
Proof.
  intros Hj.
  pose proof (ln_pos R HR) as HlnR.
  pose proof ratio_pos as Hratio.
  assert (Hln : ln ratio <= ln (R ^ j)).
  { rewrite ln_pow by lra. rewrite <- estimate_times_log.
    apply Rmult_le_compat_r; lra. }
  assert (Hle : ratio <= R ^ j).
  { destruct (Rle_dec ratio (R ^ j)) as [Hle|Hnle]; [exact Hle|].
    assert (Hlt : ln (R ^ j) < ln ratio).
    { apply ln_increasing; [apply pow_lt; lra|lra]. }
    lra. }
  assert (Hmul : ratio * (K - A) = K - B) by (unfold ratio; field; lra).
  rewrite <- Hmul. rewrite Rmult_comm.
  apply Rmult_le_compat_l; [lra|exact Hle].
Qed.

(** The estimate is above -1: the closed form is never negative. *)
Lemma estimate_above_minus_one : -1 < L.
Proof.
  pose proof (ln_pos R HR) as HlnR.
  pose proof ratio_pos as Hratio.
  assert (Hinv : / R < ratio).
  { assert (Hmul : ratio * (K - A) = K - B) by (unfold ratio; field; lra).
    assert (HRr : K - A < R * ratio * (K - A)).
    { rewrite Rmult_assoc, Hmul, critical_fixed_point. lra. }
    assert (H1 : 1 < R * ratio).
    { apply Rmult_lt_reg_r with (K - A); [lra|]. lra. }
    apply Rmult_lt_reg_l with R; [lra|].
    rewrite Rinv_r by lra. exact H1. }
  assert (Hln : - ln R < ln ratio).
  { rewrite <- ln_Rinv by lra. apply ln_increasing; [|exact Hinv].
    apply Rinv_0_lt_compat. lra. }
  apply Rmult_lt_reg_r with (ln R); [exact HlnR|].
  rewrite estimate_times_log. lra.
Qed.

(** The year in which the projection leaves the loop is the solver's
    [floor (1 + L)] or the year after it. *)
Lemma depletion_year :
  exists n D : nat,
    Rfloor (1 + L) = INR n /\
    (D = n \/ D = S n) /\ (1 <= D)%nat /\
    (D = n <-> 1 + L = INR n) /\
    Page.stays A B G Inf (D - 1) /\
    Rleb (Page.balance (entering D)) 0 = true.
Proof.
  pose proof estimate_above_minus_one as HL.
  destruct (base_Int_part (1 + L)) as (Hlo & Hhi).
  set (z := Int_part (1 + L)) in *.
  assert (Hz : (0 <= z)%Z).
  { apply le_IZR. apply Rnot_lt_le. intros Hneg.
    assert (Hz1 : (z <= -1)%Z).
    { apply Z.lt_succ_r. apply lt_IZR. simpl. lra. }
    apply IZR_le in Hz1. lra. }
  set (n := Z.to_nat z).
  assert (Hn : INR n = IZR z).
  { unfold n. rewrite INR_IZR_INZ, Z2Nat.id by exact Hz. reflexivity. }
  clearbody n. exists n.
  assert (Hbelow : forall j, (S j < n)%nat -> INR j < L).
  { intros j Hj. apply lt_INR in Hj. rewrite S_INR in Hj. lra. }
  destruct (Rle_dec (1 + L) (INR n)) as [Hint|Hfrac].
  - (* the estimate is an integer *)
    assert (Hn1 : (1 <= n)%nat).
    { destruct (Nat.eq_dec n 0) as [H0|H0]; [|lia].
      rewrite H0 in Hint. simpl in Hint. lra. }
    assert (Hleave := leaves_at (n - 1)).
    replace (S (n - 1)) with n in Hleave by lia.
    destruct Hleave as (Hs & Hz0).
    { intros j Hj. apply below_estimate. apply Hbelow. lia. }
    { apply above_estimate. rewrite minus_INR by lia. simpl. lra. }
    exists n.
    split; [unfold Rfloor; fold z; now rewrite Hn|].
    split; [left; reflexivity|].
    split; [exact Hn1|].
    split; [split; [intros _; lra|reflexivity]|].
    split; [exact Hs|exact Hz0].
  - destruct (leaves_at n) as (Hs & Hz0).
    { intros j Hj. apply below_estimate.
      destruct (Nat.eq_dec (S j) n) as [Heq|Hne].
      - rewrite <- Heq, S_INR in Hfrac. lra.
      - apply Hbelow. lia. }
    { apply above_estimate. lra. }
    exists (S n).
    split; [unfold Rfloor; fold z; now rewrite Hn|].
    split; [right; reflexivity|].
    split; [lia|].
    split; [split; [intros Heq; lia|intros Heq; lra]|].
    replace (S n - 1)%nat with n by lia.
    split; [exact Hs|exact Hz0].
Qed.

End DepletionYear.

Section RoundTrip.
Local Open Scope R_scope.

(** C2, as the code has it: the solver and the projection are two separate
    computations, and nothing in the code makes the year of the one the
    year of the other.  For any arithmetic: in the general branch the
    solver's year count is [floor (1 + log ((K - B) / (K - A)) / log R)],
    while the record of value 0 of the projection stands at the first year
    [D] in which the test [currentPortfolio <= 0] after the withdrawal
    succeeds, provided the horizon reaches [D], and there is no such record
    when the test fails up to the horizon.  In exact arithmetic, for a
    positive starting amount and withdrawal, [R >= 1.0001] and [K > A], the
    solver's [n] is the floor of the continuous estimate and the projection
    runs out in the first whole year [D] at or after the estimate: [D] is
    [n] when the estimate is a whole number and [n + 1] otherwise.  On
    binary64 even that fails: with a starting amount of 999,950, a
    withdrawal of 50,000 and a growth of 0.01 percent the quotient [R]
    prints as 1.0001 but [R - 1] is below [0.0001], the solver takes the
    branch for [R] near 1 without calling [Math.log], answers 19, and the
    projection runs out in year 21. *)
Theorem depletion_year_vs_closed_form :
  (forall (num : Type) (H : Arith num) (A B inflation growth : num)
          (maxYears D : nat),
     let Inf := (inflation / #100)%js in
     let G := (growth / #100)%js in
     let R := ((#1 + G) / (#1 + Inf))%js in
     let K := (B * R / (R - #1))%js in
     let r := result (Page.calculateZCD A B inflation growth) in
     let d := Page.generateYearlyData A B G Inf maxYears in
     ((B / A <? (R - #1) / R)%js = false ->
      (nabs (R - #1) <? tolerance)%js = false ->
      (K - A <=? #0)%js = false ->
      isInfinite r = false /\
      zcd r = ZNum (nfloor (#1 + nlog ((K - B) / (K - A)) / nlog R))%js) /\
     ((1 <= D <= maxYears)%nat ->
      Page.stays A B G Inf (D - 1) ->
      (Page.balance (Page.enteringYear A B G Inf D) <=? #0)%js = true ->
      length d = S D /\
      nth_error d D
      = Some (depleted D (currentBurn (Page.enteringYear A B G Inf D)))) /\
     (Page.stays A B G Inf maxYears ->
      length d = S maxYears /\
      forall j rec, (1 <= j)%nat -> nth_error d j = Some rec ->
        let st := Page.enteringYear A B G Inf j in
        rec = snapshot j (currentBurn st * (#1 + Inf))%js
                         (Page.balance st * (#1 + G))%js)) /\
  (forall A B inflation growth : R,
     let Inf := inflation / 100 in
     let G := growth / 100 in
     let R := (1 + G) / (1 + Inf) in
     let K := B * R / (R - 1) in
     0 < A -> 0 < B -> 0 < 1 + Inf -> 1.0001 <= R -> A < K ->
     let r := result (Page.calculateZCD A B inflation growth) in
     exists n D : nat,
       isInfinite r = false /\
       zcd r = ZNum (INR n) /\
       (D = n \/ D = S n) /\ (1 <= D)%nat /\
       (D = n <-> 1 + ln ((K - B) / (K - A)) / ln R = INR n) /\
       (forall maxYears, (D <= maxYears)%nat ->
          let d := Page.generateYearlyData A B G Inf maxYears in
          length d = S D /\
          exists w, nth_error d D = Some (depleted D w)) /\
       (forall maxYears j rec, (j < D)%nat ->
          nth_error (Page.generateYearlyData A B G Inf maxYears) j = Some rec ->
          0 < portfolioValue rec)) /\
  (forall log : float -> float,
     let out := Page.calculateZCD (H := FloatArith log)
                  999950%float 50000%float 0%float 0.01%float in
     let d := Page.generateYearlyData (H := FloatArith log)
                999950%float 50000%float (0.01 / 100)%float (0 / 100)%float
                24 in
     ((1 + 0.01 / 100) / (1 + 0 / 100) = 1.0001 /\
      (abs (1.0001 - 1) <? 0.0001) = true /\
      Page.calculateZCD_logCalls (H := FloatArith log) 999950 50000 0 0.01
      = [] /\
      isInfinite (result out) = false /\
      zcd (result out) = ZNum 19 /\
      horizon out = 24 /\
      length d = 22%nat /\
      nth_error d 19 = Some (snapshot 19 50000 50901.04564151154) /\
      nth_error d 20 = Some (snapshot 20 50000 901.1357460756916) /\
      nth_error d 21 = Some (depleted (H := FloatArith log) 21 50000))%float).
Proof.
  split; [|split].
  { intros num H A B inflation growth maxYears D Inf G R K r d.
    split; [|split].
    - intros Hfin Hgen HK. subst r.
      unfold Page.calculateZCD, finiteYears. fold Inf G. fold R. fold K.
      rewrite Hfin, Hgen, HK. split; reflexivity.
    - intros HD Hs Hz. exact (record_last A B G Inf maxYears D HD Hs Hz).
    - intros Hs. split; [exact (stays_length A B G Inf maxYears Hs)|].
      intros j rec Hj Hrec st.
      destruct (record_pushed A B G Inf maxYears j rec Hj Hrec)
        as (Hle & Hpushed & _).
      subst rec st. unfold Page.pushed.
      rewrite (Hs j) by lia. reflexivity. }
  2:{ intros log out d. subst out d. repeat split; vm_compute; reflexivity. }
  intros A B inflation growth Inf G R K HA HB Hi HR HK r.
  assert (HR1 : 1 < R) by lra.
  destruct (depletion_year A B G Inf HA HB Hi HR1 HK)
    as (n & D & Hfloor & HD & H1 & Hiff & Hs & Hz).
  fold R in Hfloor, Hiff. fold K in Hfloor, Hiff.
  exists n, D.
  assert (HKdef : K * (R - 1) = B * R) by (unfold K; field; lra).
  assert (Hfin : (R - 1) / R <= B / A).
  { apply Rnot_lt_le. intros Hlt.
    assert (HAR : 0 < A * R) by (apply Rmult_lt_0_compat; lra).
    apply (Rmult_lt_compat_r (A * R)) in Hlt; [|exact HAR].
    replace (B / A * (A * R)) with (B * R) in Hlt by (field; lra).
    replace ((R - 1) / R * (A * R)) with ((R - 1) * A) in Hlt by (field; lra).
    nra. }
  assert (Hr : r = {| zcd := ZNum (INR n);
                      isInfinite := false;
                      realGrowthRate := (R - 1) * 100;
                      criticalCapital := Some K;
                      spendingRate := B / A * 100;
                      sustainableRate := (R - 1) / R * 100 |}).
  { subst r. unfold Page.calculateZCD, finiteYears. at_reals.
    fold Inf G. fold R. fold K. rewrite tolerance_real.
    rewrite (Rltb_false (B / A)) by exact Hfin.
    rewrite (Rltb_false (Rabs (R - 1))) by rsolve.
    rewrite Rleb_false by lra.
    simpl. now rewrite Hfloor. }
  rewrite Hr. simpl.
  split; [reflexivity|]. split; [reflexivity|].
  split; [exact HD|]. split; [exact H1|]. split; [exact Hiff|].
  split.
  - intros maxYears Hmax.
    destruct (record_last A B G Inf maxYears D) as (Hlen & Hnth);
      [lia|exact Hs|exact Hz|].
    split; [exact Hlen|]. eexists. exact Hnth.
  - intros maxYears j rec Hj Hrec.
    destruct j as [|j].
    + rewrite record_zero in Hrec. injection Hrec as <-. simpl. exact HA.
    + destruct (record_pushed A B G Inf maxYears (S j) rec)
        as (_ & Hpushed & _); [lia|exact Hrec|].
      assert (Hstay : Rleb (Page.balance (Page.enteringYear A B G Inf (S j))) 0
                      = false).
      { apply Hs. lia. }
      subst rec. unfold Page.pushed. at_reals. rewrite Hstay. simpl.
      apply Rleb_false_inv in Hstay.
      apply Rmult_lt_0_compat; [exact Hstay|].
      rewrite (growth_factor G Inf Hi). fold R.
      apply Rmult_lt_0_compat; lra.
Qed.

Lemma depletion_year_vs_closed_form_witness :
  exists n D : nat,
    zcd (result (Page.calculateZCD 100 60 0 100)) = ZNum (INR n) /\
    (D = n \/ D = S n) /\
    forall maxYears, (D <= maxYears)%nat ->
      length (Page.generateYearlyData 100 60 (100 / 100) (0 / 100) maxYears)
      = S D.
Proof.
  destruct depletion_year_vs_closed_form as (_ & Hreal & _).
  destruct (Hreal 100 60 0 100)
    as (n & D & _ & Hzcd & HD & _ & _ & Hlast & _); try lra.
  exists n, D. split; [exact Hzcd|]. split; [exact HD|].
  intros maxYears Hmax. exact (proj1 (Hlast maxYears Hmax)).
Defined.

(** With [A = 100], [B = 60], no inflation and a growth of 100 percent the
    solver answers 2 years; the projection over 2 years ends at year 2 with
    40 left, and runs out in year 3. *)
Lemma projection_positive_at_closed_form_year :
  let r := result (Page.calculateZCD 100 60 0 100) in
  let d := Page.generateYearlyData 100 60 (100 / 100) (0 / 100) 2 in
  isInfinite r = false /\ zcd r = ZNum 2 /\
  length d = 3%nat /\
  exists rec, nth_error d 2 = Some rec /\ year rec = 2%nat /\
              portfolioValue rec = 40 /\ portfolioValue rec <> 0.
Proof.
  cbv zeta. split; [|split].
  - unfold Page.calculateZCD. at_reals. decide_tests. reflexivity.
  - unfold Page.calculateZCD. at_reals. decide_tests. simpl.
    now rewrite doubling_years_60.
  - project.
    split; [reflexivity|].
    eexists. split; [reflexivity|]. simpl. repeat split; lra.
Qed.

End RoundTrip.

(** ** The same runs on binary64

    The runs below do not depend on what [Math.log] returns, or hold for
    every [Math.log]. *)

Section Binary64.
Variable log : float -> float.
Local Open Scope float_scope.

Let F : Arith float := FloatArith log.
Existing Instance F.

Lemma tolerance_float : tolerance = 0.0001.
Proof. vm_compute. reflexivity. Qed.

Lemma floor_float :
  F64.floor 36.141667345924105 = 36 /\ F64.floor 2.5 = 2 /\
  F64.floor (-0.5) = -1 /\ F64.floor 7 = 7 /\
  F64.floor infinity = infinity /\ is_nan (F64.floor nan) = true.
Proof. repeat split; vm_compute; reflexivity. Qed.

(** The inputs the last revision of the page starts with: the infinite case
    is reported, with a spending rate of 5 percent on display above the
    sustainable 3.738 percent. *)
Lemma default_inputs_infinite_float :
  let r := result (Part001.calculateZCD 1000000 50000 3 7 75000 10) in
  isInfinite r = true /\ spendingRate r = 5 /\
  sustainableRate r = 3.738317757009344 /\
  (spendingRate r <? sustainableRate r) = false.
Proof. vm_compute. repeat split. Qed.

(** Without working years, two rates one rounding step apart are told apart
    by the test for the infinite case and merged by the multiplication by
    100. *)
Lemma rounding_merges_rates_float :
  let r := result (Page.calculateZCD 1 0.04761904761904765 0 5) in
  isInfinite r = true /\ spendingRate r = sustainableRate r.
Proof. vm_compute. repeat split. Qed.

(** The first scenario: the projection runs out in year 37. *)
Lemma scenario_one_projection_float :
  let d := Page.generateYearlyData 1000000 50000 (7 / 100) (3 / 100) 41 in
  length d = 38%nat /\
  nth_error d 36 = Some (snapshot 36 144913.9164001336 20866.775071829441) /\
  nth_error d 37 = Some (depleted 37 144913.9164001336).
Proof. vm_compute. repeat split. Qed.

(** The sustainable withdrawal: 0 years are reported, and the projection
    stays at 100. *)
Lemma sustainable_withdrawal_float :
  zcd (result (Page.calculateZCD 100 50 0 100)) = ZNum 0 /\
  horizon (Page.calculateZCD 100 50 0 100) = 5 /\
  nth_error (Page.generateYearlyData 100 50 (100 / 100) (0 / 100) 50) 50
  = Some (snapshot 50 50 100).
Proof. vm_compute. repeat split. Qed.

(** Growth below inflation, 3 against 7 percent: 0 years are reported, and
    the projection runs out in year 16. *)
Lemma growth_below_inflation_float :
  zcd (result (Page.calculateZCD 1000000 50000 7 3)) = ZNum 0 /\
  length (Page.generateYearlyData 1000000 50000 (3 / 100) (7 / 100) 50)
  = 17%nat.
Proof. vm_compute. repeat split. Qed.

(** No withdrawal and equal rates: the year count, and with it the horizon
    asked of the projection, is [infinity]. *)
Lemma no_withdrawal_float :
  zcd (result (Page.calculateZCD 1000000 0 3 3)) = ZNum infinity /\
  horizon (Page.calculateZCD 1000000 0 3 3) = infinity.
Proof. vm_compute. repeat split. Qed.

(** With both rates at 3 percent the loop is still running after 1000
    passes. *)
Lemma no_withdrawal_equal_rates_float :
  Page.calculateZCD_run 1000 1000000 0 3 3 = None /\
  length (Page.generateYearlyData 1000000 0 (3 / 100) (3 / 100) 1000)
  = 1001%nat.
Proof. vm_compute. repeat split. Qed.

(** Equal rates on binary64: when the quotient [R] is 1, as it is for every
    rate with [1 + rate / 100] finite and not 0, and [B / A] is not
    negative, the result is [floor (A / B)]. *)
Lemma equal_rates_float (A B rate : float) :
  (1 + rate / 100) / (1 + rate / 100) = 1 ->
  (B / A <? 0) = false ->
  let r := result (Page.calculateZCD A B rate rate) in
  isInfinite r = false /\ zcd r = ZNum (F64.floor (A / B)).
Proof.
  intros HR HBA. cbv zeta.
  unfold Page.calculateZCD, finiteYears. simpl.
  change (F64.ofZ 1) with 1. change (F64.ofZ 100) with 100.
  rewrite HR.
  change ((1 - 1) / 1) with 0. rewrite HBA.
  change (abs (1 - 1) <? tolerance) with true.
  split; reflexivity.
Qed.

(** The run that refutes the round trip: whatever [Math.log] is, it is
    called on 3 and on 2; the projection over 2 years ends with 40 left, and
    the record of value 0 is the one of year 3. *)
Lemma projection_positive_at_closed_form_year_float :
  Page.calculateZCD_logCalls 100 60 0 100 = [3; 2] /\
  zcd (result (Page.calculateZCD 100 60 0 100))
  = ZNum (F64.floor (1 + log 3 / log 2)) /\
  Page.generateYearlyData 100 60 (100 / 100) (0 / 100) 2
  = [snapshot 0 60 100; snapshot 1 60 80; snapshot 2 60 40] /\
  length (Page.generateYearlyData 100 60 (100 / 100) (0 / 100) 7) = 4%nat /\
  nth_error (Page.generateYearlyData 100 60 (100 / 100) (0 / 100) 7) 3
  = Some (depleted 3 60).
Proof. vm_compute. repeat split. Qed.

(** With a starting amount of 0 record 0 holds 0 and is followed by the
    record of year 1; with a growth of -200 percent the record of year 1
    holds -900 and is followed by the record of year 2. *)
Lemma zero_capital_before_last_float :
  Page.generateYearlyData 0 50000 (7 / 100) (3 / 100) 5
  = [snapshot 0 50000 0; depleted 1 50000] /\
  Page.generateYearlyData 1000 100 (-200 / 100) (3 / 100) 5
  = [snapshot 0 100 1000; snapshot 1 103 (-900); depleted 2 103].
Proof. vm_compute. repeat split. Qed.

(** A withdrawal at the sustainable rate in exact arithmetic, [K = A = 300]:
    on binary64 [K] comes out one rounding step above [A], the closed form
    is evaluated, on a quotient of about 2.7e15, and the projection does
    not run out in 400 years. *)
Lemma rounding_lifts_critical_capital_float :
  criticalCapital (result (Page.calculateZCD 300 147 2 100))
  = Some 300.00000000000006 /\
  Page.calculateZCD_logCalls 300 147 2 100
  = [2691604464795649; 1.9607843137254901] /\
  length (Page.generateYearlyData 300 147 (100 / 100) (2 / 100) 400)
  = 401%nat.
Proof. vm_compute. repeat split. Qed.

(** The infinite case reported for a projection that runs out: the rates
    on display differ in the last digit, the test for the infinite case
    succeeds, and the projection over the 50 years asked for ends with the
    record of value 0 at year 48. *)
Lemma infinite_case_runs_out_float :
  let out := Page.calculateZCD 450 246 2 125 in
  let d := Page.generateYearlyData 450 246 (125 / 100) (2 / 100) 50 in
  isInfinite (result out) = true /\ horizon out = 50 /\
  spendingRate (result out) = 54.666666666666664 /\
  sustainableRate (result out) = 54.666666666666671 /\
  length d = 49%nat /\
  nth_error d 47 = Some (snapshot 47 623.94050473809807 275.63126233304263) /\
  nth_error d 48 = Some (depleted 48 623.94050473809807) /\
  Page.calculateZCD_run 48 450 246 2 125 = Some (result out, d).
Proof. vm_compute. repeat split. Qed.

(** Growth just below inflation, [R] printing as 0.9999: the branch for [R]
    near 1 is taken, 20 years are reported, and the projection runs out in
    year 20. *)
Lemma near_one_below_float :
  (1 + -0.01 / 100) / (1 + 0 / 100) = 0.9999 /\
  zcd (result (Page.calculateZCD 1000000 50000 0 (-0.01))) = ZNum 20 /\
  Page.calculateZCD_logCalls 1000000 50000 0 (-0.01) = [] /\
  length (Page.generateYearlyData 1000000 50000 (-0.01 / 100) (0 / 100) 25)
  = 21%nat.
Proof. vm_compute. repeat split. Qed.

End Binary64.

(** * Further properties *)

(** ** The working years: solver and projection side by side *)

(** A pass that stays in the loop: the loop variables after it. *)
Lemma loopBody_stays {num : Type} `{Arith num} (G Inf salary : num)
  (retirementYears year : nat) (st : LoopState num) :
  nleb (Part001.balance salary retirementYears year st) (nofZ 0) = false ->
  fst (Part001.loopBody G Inf salary retirementYears year st)
  = {| currentPortfolio :=
         nmul (Part001.balance salary retirementYears year st)
              (nadd (nofZ 1) G);
       currentBurn := nmul (currentBurn st) (nadd (nofZ 1) Inf);
       data := data st
               ++ [Part001.pushed G Inf salary retirementYears year st] |}.
Proof.
  intros Hz. unfold Part001.loopBody, Part001.pushed.
  unfold Part001.balance in *. cbv zeta. now rewrite Hz.
Qed.

Section WorkingPhase.
Context {num : Type} `{Arith num}.
Local Open Scope js_scope.

Variables G Inf salary : num.
Variable retirementYears : nat.

Let run := Part001.loop G Inf salary retirementYears.
Let left := Part001.balance salary retirementYears.

(** The loop of the solver over the working years does, year by year, what
    the loop of the projection does: the same tests on the same numbers. *)
Lemma workingYears_mirrors remaining : forall year st,
  (year + remaining <= S retirementYears)%nat ->
  match Part001.workingYears G Inf salary remaining year
          (currentPortfolio st) (currentBurn st) with
  | inl y =>
      exists k, y = (year + k)%nat /\ (k < remaining)%nat /\
        (forall j, (j < k)%nat ->
           (left (year + j) (run j year st) <=? #0) = false) /\
        (left (year + k) (run k year st) <=? #0) = true
  | inr (p, b) =>
      (forall j, (j < remaining)%nat ->
         (left (year + j) (run j year st) <=? #0) = false) /\
      currentPortfolio (run remaining year st) = p /\
      currentBurn (run remaining year st) = b
  end.
Proof.
  induction remaining as [|remaining IH]; intros year st Hyear.
  - simpl. split; [intros j Hj; lia|]. split; reflexivity.
  - assert (Hwork : (year <=? retirementYears)%nat = true)
      by (apply Nat.leb_le; lia).
    assert (Hleft : left year st
                    = currentPortfolio st + salary - currentBurn st).
    { unfold left, Part001.balance. now rewrite Hwork. }
    cbn [Part001.workingYears]. cbv zeta. rewrite <- Hleft.
    destruct (nleb (left year st) #0) eqn:Hz.
    + exists 0%nat. rewrite Nat.add_0_r.
      split; [reflexivity|]. split; [lia|]. split; [intros j Hj; lia|].
      exact Hz.
    + set (st' := fst (Part001.loopBody G Inf salary retirementYears year st)).
      assert (Hst' : currentPortfolio st' = left year st * (#1 + G) /\
                     currentBurn st' = currentBurn st * (#1 + Inf)).
      { unfold st'. rewrite loopBody_stays by exact Hz.
        split; reflexivity. }
      destruct Hst' as (Hp & Hb).
      assert (Hrun : forall j, run (S j) year st = run j (S year) st').
      { intros j. unfold run. rewrite run_S.
        fold (left year st). now rewrite Hz. }
      specialize (IH (S year) st'). rewrite Hp, Hb in IH.
      assert (Hyear' : (S year + remaining <= S retirementYears)%nat) by lia.
      specialize (IH Hyear').
      destruct (Part001.workingYears G Inf salary remaining (S year)
                  (left year st * (#1 + G)) (currentBurn st * (#1 + Inf)))
        as [y|[p b]].
      * destruct IH as (k & Hy & Hk & Hbefore & Hstop).
        exists (S k). split; [lia|]. split; [lia|]. split.
        -- intros [|j] Hj.
           ++ now rewrite Nat.add_0_r.
           ++ rewrite Hrun.
              replace (year + S j)%nat with (S year + j)%nat by lia.
              apply Hbefore. lia.
        -- rewrite Hrun.
           replace (year + S k)%nat with (S year + k)%nat by lia.
           exact Hstop.
      * destruct IH as (Hbefore & Hp' & Hb').
        rewrite Hrun. split; [|split; assumption].
        intros [|j] Hj.
        -- now rewrite Nat.add_0_r.
        -- rewrite Hrun.
           replace (year + S j)%nat with (S year + j)%nat by lia.
           apply Hbefore. lia.
Qed.

End WorkingPhase.

Section WorkingPhaseResults.
Context {num : Type} `{Arith num}.
Local Open Scope js_scope.

Variables A B inflation growth salary : num.
Variable retirementYears : nat.

Let Inf := inflation / #100.
Let G := growth / #100.
Let R := (#1 + G) / (#1 + Inf).
Let project := Part001.generateYearlyData A B G Inf salary retirementYears.
Let out := Part001.calculateZCD A B inflation growth salary retirementYears.

(** X1: when the solver finds the money gone in a working year [y], it
    reports [y] years and no critical capital, and every projection of at
    least [y] years ends in year [y] with the record of value 0: solver and
    projection agree exactly, for any arithmetic. *)
Theorem early_depletion_agrees (y : nat) :
  Part001.workingYears G Inf salary retirementYears 1 A B = inl y ->
  (1 <= y <= retirementYears)%nat /\
  zcd (result out) = ZNum #(Z.of_nat y) /\
  isInfinite (result out) = false /\
  criticalCapital (result out) = None /\
  horizon out = #(Z.of_nat y) + #2 /\
  forall maxYears, (y <= maxYears)%nat ->
    length (project maxYears) = S y /\
    nth_error (project maxYears) y
    = Some (depleted y (currentBurn
              (Part001.enteringYear A B G Inf salary retirementYears y))).
Proof.
  intros Hwork.
  pose proof (workingYears_mirrors G Inf salary retirementYears
                retirementYears 1 (initial A B)) as Hm.
  cbn [initial currentPortfolio currentBurn] in Hm.
  rewrite Hwork in Hm.
  destruct Hm as (k & Hy & Hk & Hbefore & Hstop); [lia|].
  split; [lia|].
  assert (Hout : out = {| result := {| zcd := ZNum #(Z.of_nat y);
                                       isInfinite := false;
                                       realGrowthRate := (R - #1) * #100;
                                       criticalCapital := None;
                                       spendingRate := (B / A) * #100;
                                       sustainableRate := ((R - #1) / R) * #100 |};
                          horizon := #(Z.of_nat y) + #2 |}).
  { unfold out, Part001.calculateZCD. fold Inf G. now rewrite Hwork. }
  rewrite Hout. cbn [result horizon zcd isInfinite criticalCapital].
  repeat (split; [reflexivity|]).
  intros maxYears Hmax. unfold project, Part001.generateYearlyData.
  assert (Hnth := run_reaches G Inf salary retirementYears maxYears k 1
                    (initial A B)).
  cbn [initial data length] in Hnth. rewrite <- Hy in Hnth.
  assert (Hk' : (k < maxYears)%nat) by lia.
  specialize (Hnth Hk' Hbefore).
  replace (1 + k)%nat with y in Hnth by lia.
  destruct (run_nth G Inf salary retirementYears maxYears 1 (initial A B) k _
              ltac:(cbn [initial data length]; rewrite <- Hy; exact Hnth))
    as (_ & _ & _ & Hlen).
  rewrite <- Hy in Hlen, Hstop. specialize (Hlen Hstop).
  cbn [initial data length] in Hlen.
  split; [rewrite Hlen; lia|].
  rewrite Hnth. unfold Part001.pushed.
  assert (He : Part001.loop G Inf salary retirementYears k 1 (initial A B)
               = Part001.enteringYear A B G Inf salary retirementYears y).
  { unfold Part001.enteringYear. now replace (y - 1)%nat with k by lia. }
  rewrite He in *. cbv zeta. now rewrite Hstop.
Qed.

(** X2: when the working years pass without the money running out, the
    numbers the solver feeds to its closed form, [portfolioAtRetirement] and
    [retirementBurn], are the loop variables of the projection when the
    first year of retirement starts; the projection has one record per year
    up to retirement; and the result is decided on these two numbers. *)
Theorem retirement_state_agrees (portfolioAtRetirement retirementBurn : num) :
  Part001.workingYears G Inf salary retirementYears 1 A B
  = inr (portfolioAtRetirement, retirementBurn) ->
  let st := Part001.enteringYear A B G Inf salary retirementYears
              (S retirementYears) in
  currentPortfolio st = portfolioAtRetirement /\
  currentBurn st = retirementBurn /\
  (forall maxYears, (maxYears <= retirementYears)%nat ->
     length (project maxYears) = S maxYears) /\
  isInfinite (result out)
  = (retirementBurn / portfolioAtRetirement <? (R - #1) / R) /\
  (isInfinite (result out) = false ->
   zcd (result out)
   = ZNum (#(Z.of_nat retirementYears)
           + finiteYears portfolioAtRetirement retirementBurn R)).
Proof.
  intros Hwork st.
  pose proof (workingYears_mirrors G Inf salary retirementYears
                retirementYears 1 (initial A B)) as Hm.
  cbn [initial currentPortfolio currentBurn] in Hm.
  rewrite Hwork in Hm.
  destruct Hm as (Hstay & Hp & Hb); [lia|].
  unfold st, Part001.enteringYear.
  replace (S retirementYears - 1)%nat with retirementYears by lia.
  split; [exact Hp|]. split; [exact Hb|]. split.
  - intros maxYears Hmax. unfold project, Part001.generateYearlyData.
    rewrite run_continue_length.
    + cbn [initial data length]. lia.
    + intros j Hj. apply Hstay. lia.
  - unfold out, Part001.calculateZCD. fold Inf G. rewrite Hwork. fold R.
    destruct (nltb _ _); cbn [result isInfinite zcd].
    + split; [reflexivity|discriminate].
    + split; reflexivity.
Qed.

End WorkingPhaseResults.

Section WorkingPhaseRuns.
Local Open Scope R_scope.

Lemma early_depletion_agrees_witness :
  zcd (result (Part001.calculateZCD 100 200 0 100 50 3)) = ZNum 1 /\
  length (Part001.generateYearlyData 100 200 (100 / 100) (0 / 100) 50 3 5)
  = 2%nat.
Proof.
  destruct (early_depletion_agrees 100 200 0 100 50 3 1)
    as (_ & Hzcd & _ & _ & _ & Hproject).
  - unfold Part001.workingYears. at_reals. decide_tests. reflexivity.
  - split; [exact Hzcd|].
    destruct (Hproject 5%nat) as (Hlen & _); [lia|exact Hlen].
Defined.

Lemma retirement_state_agrees_witness :
  let st := Part001.enteringYear 100 60 (100 / 100) (0 / 100) 1000 1 2 in
  currentPortfolio st = (100 + 1000 - 60) * (1 + 100 / 100) /\
  currentBurn st = 60 * (1 + 0 / 100).
Proof.
  destruct (retirement_state_agrees 100 60 0 100 1000 1
              ((100 + 1000 - 60) * (1 + 100 / 100)) (60 * (1 + 0 / 100)))
    as (Hp & Hb & _).
  - unfold Part001.workingYears. at_reals. decide_tests. reflexivity.
  - split; [exact Hp|exact Hb].
Defined.

End WorkingPhaseRuns.

(** ** The horizon only cuts the projection short *)

Section Horizon.
Context {num : Type} `{Arith num}.
Local Open Scope js_scope.

Variables A B G Inf : num.

(** The records up to year [m] do not depend on the horizon, as long as it
    is at least [m]. *)
Lemma record_stable salary retirementYears m n i :
  (i <= m)%nat -> (m <= n)%nat ->
  nth_error (Part001.generateYearlyData A B G Inf salary retirementYears m) i
  = nth_error (Part001.generateYearlyData A B G Inf salary retirementYears n) i.
Proof.
  intros Him Hmn. unfold Part001.generateYearlyData.
  set (run := fun h => Part001.loop G Inf salary retirementYears h 1
                         (initial A B)).
  change (nth_error (data (run m)) i = nth_error (data (run n)) i).
  destruct i as [|k].
  - unfold run. now rewrite !run_prefix by (cbn [initial data length]; lia).
  - assert (Hidx : S k = (length (data (initial A B)) + k)%nat)
      by (cbn [initial data length]; lia).
    rewrite Hidx.
    assert (Hboth : forall m' n' r, (k < n')%nat ->
              nth_error (data (run m')) (length (data (initial A B)) + k)
              = Some r ->
              nth_error (data (run n')) (length (data (initial A B)) + k)
              = Some r).
    { intros m' n' r Hk Hr. unfold run in *.
      apply run_nth in Hr. destruct Hr as (_ & -> & Hbefore & _).
      now apply run_reaches. }
    destruct (nth_error (data (run n)) (length (data (initial A B)) + k))
      as [r|] eqn:En.
    + apply (Hboth n m r); [lia|exact En].
    + destruct (nth_error (data (run m)) (length (data (initial A B)) + k))
        as [r|] eqn:Em; [|reflexivity].
      apply (Hboth m n r) in Em; [congruence|lia].
Qed.

(** X3: a projection over [m] years is the first [m + 1] records of any
    longer projection of the same inputs: the horizon changes no record, it
    only cuts the list.  For any arithmetic, in the last revision and in
    [page.tsx]. *)
Theorem shorter_horizon_is_prefix salary retirementYears m n :
  (m <= n)%nat ->
  Part001.generateYearlyData A B G Inf salary retirementYears m
  = firstn (S m)
      (Part001.generateYearlyData A B G Inf salary retirementYears n) /\
  Page.generateYearlyData A B G Inf m
  = firstn (S m) (Page.generateYearlyData A B G Inf n).
Proof.
  intros Hmn.
  assert (Hany : forall s ry,
            Part001.generateYearlyData A B G Inf s ry m
            = firstn (S m) (Part001.generateYearlyData A B G Inf s ry n)).
  { intros s ry. apply nth_error_ext. intros i.
    rewrite nth_error_firstn.
    destruct (Nat.ltb i (S m)) eqn:Ei.
    - apply Nat.ltb_lt in Ei. apply record_stable; lia.
    - apply Nat.ltb_ge in Ei. apply nth_error_None.
      unfold Part001.generateYearlyData.
      pose proof (run_length G Inf s ry m 1 (initial A B)) as Hl.
      cbn [initial data length] in Hl. lia. }
  split; [apply Hany|].
  rewrite <- !(generateYearlyData_no_salary A B G Inf #0).
  apply Hany.
Qed.

End Horizon.

Section HorizonRuns.
Local Open Scope R_scope.

Lemma shorter_horizon_is_prefix_witness :
  Page.generateYearlyData 100 60 (100 / 100) (0 / 100) 2
  = firstn 3 (Page.generateYearlyData 100 60 (100 / 100) (0 / 100) 7).
Proof.
  apply (shorter_horizon_is_prefix 100 60 (100 / 100) (0 / 100) 0 0%nat 2 7).
  lia.
Defined.

End HorizonRuns.

(** ** The input fields *)

Section InputFields.
Import Inputs.

Lemma filter_narrower {X : Type} (f g : X -> bool) (l : list X) :
  (forall x, f x = true -> g x = true) ->
  filter f (filter g l) = filter f l.
Proof.
  intros Hfg. induction l as [|x l IH]; [reflexivity|].
  simpl. destruct (g x) eqn:Eg.
  - simpl. destruct (f x); [now rewrite IH|exact IH].
  - destruct (f x) eqn:Ef; [|exact IH].
    apply Hfg in Ef. congruence.
Qed.

Variable parseFloat : jsString -> float.
Variable parseInt : jsString -> float.

(** X10: whatever is typed into an amount field of the last revision, the
    text kept for display holds only digits, commas, dots and white space;
    the number stored is the one [parseNumberFromCommas] reads from the raw
    text, the filter in front changing nothing; it is never [NaN]; and
    handling the displayed text again gives the same text and number. *)
Theorem handleInputChange_filters (value : jsString) :
  let display := fst (handleInputChange parseFloat value) in
  let actual := snd (handleInputChange parseFloat value) in
  Forall (fun c => isDigit c || isComma c || isDot c || isSpace c = true)
         display /\
  actual = parseNumberFromCommas parseFloat value /\
  PrimFloat.is_nan actual = false /\
  handleInputChange parseFloat display = (display, actual).
Proof.
  cbv zeta. unfold handleInputChange. cbn [fst snd].
  assert (Hclean : forall s, keepDigitsAndDots (keepTyped s) = keepDigitsAndDots s).
  { intros s. unfold keepDigitsAndDots, keepTyped. apply filter_narrower.
    intros c Hc. apply orb_true_iff in Hc. destruct Hc as [Hc|Hc]; rewrite Hc.
    - reflexivity.
    - now rewrite !orb_true_r. }
  assert (Hidem : keepTyped (keepTyped value) = keepTyped value).
  { unfold keepTyped. apply filter_narrower. intros c Hc. exact Hc. }
  split.
  { apply Forall_forall. intros c Hc. unfold keepTyped in Hc.
    apply filter_In in Hc. exact (proj2 Hc). }
  split.
  { unfold parseNumberFromCommas. now rewrite Hclean. }
  split.
  { unfold parseNumberFromCommas. cbv zeta.
    destruct (PrimFloat.is_nan (parseFloat _)) eqn:E; [reflexivity|exact E]. }
  now rewrite Hidem.
Qed.

(** X11: whatever texts the field of the years until retirement receives,
    one after the other, and whatever [parseInt] returns on them, the stored
    number of years is never [NaN] and never negative; an empty field and
    the text [0] store 0. *)
Theorem retirement_years_never_negative (texts : list jsString) :
  let years := fold_left (retirementChange parseInt) texts 10%float in
  PrimFloat.is_nan years = false /\ PrimFloat.leb 0%float years = true /\
  forall before, retirementChange parseInt before [] = 0%float /\
                 retirementChange parseInt before [48%N] = 0%float.
Proof.
  cbv zeta.
  assert (Hinv : forall ts s,
            PrimFloat.is_nan s = false /\ PrimFloat.leb 0%float s = true ->
            PrimFloat.is_nan (fold_left (retirementChange parseInt) ts s) = false /\
            PrimFloat.leb 0%float (fold_left (retirementChange parseInt) ts s)
            = true).
  { induction ts as [|t ts IH]; intros s Hs; [exact Hs|].
    simpl. apply IH. unfold retirementChange.
    destruct (jsString_eqb t [] || jsString_eqb t [48%N]).
    - split; reflexivity.
    - cbv zeta.
      destruct (PrimFloat.is_nan (parseInt t)) eqn:En; simpl; [exact Hs|].
      destruct (PrimFloat.leb 0%float (parseInt t)) eqn:El; [|exact Hs].
      split; assumption. }
  destruct (Hinv texts 10%float) as (Hn & Hl); [split; reflexivity|].
  split; [exact Hn|]. split; [exact Hl|].
  intros before. split; reflexivity.
Qed.

End InputFields.

Section InputFieldsPage.
Import Inputs.

Variable parseFloat : jsString -> float.

(** X12: in [page.tsx] the amount read from a field is never [NaN], and
    commas, wherever they stand in the text, do not change it. *)
Theorem amount_ignores_commas (str : jsString) :
  PrimFloat.is_nan (parseNumberFromCommas_page parseFloat str) = false /\
  parseNumberFromCommas_page parseFloat (dropCommas str)
  = parseNumberFromCommas_page parseFloat str /\
  forall before after,
    parseNumberFromCommas_page parseFloat (before ++ 44%N :: after)
    = parseNumberFromCommas_page parseFloat (before ++ after).
Proof.
  unfold parseNumberFromCommas_page. cbv zeta. split; [|split].
  - destruct (PrimFloat.is_nan (parseFloat (dropCommas str))) eqn:En;
      [reflexivity|].
    simpl. destruct (PrimFloat.eqb _ _); [reflexivity|exact En].
  - unfold dropCommas. now rewrite filter_narrower by (intros c Hc; exact Hc).
  - intros before after. unfold dropCommas.
    now rewrite !filter_app.
Qed.

End InputFieldsPage.

(** ** No working years: the last revision against [page.tsx] *)

Section NoWorkingYears.
Context {num : Type} `{Arith num}.
Local Open Scope js_scope.

(** X14: with 0 years until retirement the last revision draws the
    projection of [page.tsx], whatever the salary, and reports the same
    classification, rates and critical capital; its year count is that of
    [page.tsx] added to 0.  For any arithmetic. *)
Theorem no_working_years_is_page (A B inflation growth salary : num)
  (maxYears : nat) :
  let Inf := inflation / #100 in
  let G := growth / #100 in
  let last := result (Part001.calculateZCD A B inflation growth salary 0) in
  let page := result (Page.calculateZCD A B inflation growth) in
  Part001.generateYearlyData A B G Inf salary 0 maxYears
  = Page.generateYearlyData A B G Inf maxYears /\
  isInfinite last = isInfinite page /\
  realGrowthRate last = realGrowthRate page /\
  spendingRate last = spendingRate page /\
  sustainableRate last = sustainableRate page /\
  criticalCapital last = criticalCapital page /\
  zcd last = match zcd page with
             | ZNum N => ZNum (#0 + N)
             | ZInfinite => ZInfinite
             end.
Proof.
  cbv zeta. split; [apply generateYearlyData_no_salary|].
  unfold Part001.calculateZCD. rewrite workingYears_none.
  unfold Page.calculateZCD.
  destruct (nltb _ _); cbn; repeat split.
Qed.

End NoWorkingYears.
